(** * Unfairness: the client orchestration layer of the ultimatum game

    A shallow embedding of the React component [App] of the frontend
    (the current revision, with the leaderboard, and the earlier revision
    kept under [frontend/src/App.js] where the two differ), followed by the
    properties of the phase function, the rendering of proposals, the
    "big win" predicate, the scheduling of the counterpart's proposal, the
    name submission, the message cap and the leaderboard pagination.

    Conventions of the embedding:
    - a JavaScript number that holds a round, a score, a page or a point
      count is a [Z]; [%] is the truncating remainder [Z.rem];
    - a JavaScript string is a [string], read as a sequence of code units
      below 256;
    - a value that may be [null] or [undefined] is an [option];
    - an object that is compared by identity carries its identity [oid];
    - [useState] cells are the fields of the record [AppState], the setters
      are record updates, and a handler is a function from the state and
      the outcome of its [fetch] to the next state and the effects issued. *)

From Stdlib Require Import ZArith String Ascii List Lia Bool.
From stdpp Require Import base option list strings.

(** ** Data received from the server *)

(** One entry of [gameState.messages]. [proposal] and [decision] are
    [null] on the events that do not carry them. *)
Record Message := {
  oid : nat;
  player : string;
  role : string;
  proposal : option Z;
  decision : option bool;
  message : string;
  round_num : Z
}.

Record GameState := {
  current_round : Z;
  human_score : Z;
  ai_score : Z;
  game_over : bool;
  winner : option string;
  player_name : option string;
  messages : option (list Message)
}.

Record LeaderboardEntry := {
  entry_player_name : string;
  entry_human_score : Z;
  entry_ai_score : Z;
  created_at : string
}.

Record LeaderboardData := {
  entries : list LeaderboardEntry;
  total_pages : Z
}.

(** The body of the answer to [/new-game]: [None] is a body without the
    key [session_id] (reading it gives [undefined]), [Some None] is
    [null]. *)
Record NewGameData := { session_id : option (option string) }.

(** ** JavaScript helpers *)

(** Truthiness of a string that may be [null]: [null] and [''] are falsy. *)
Definition truthy_str (o : option string) : bool :=
  match o with
  | Some s => negb (String.eqb s "")
  | None => false
  end.

(** Truthiness of a number. *)
Definition truthy_num (z : Z) : bool := negb (z =? 0)%Z.

(** [Number(x)] for a nullable number in an arithmetic context. *)
Definition to_number (o : option Z) : Z := default 0%Z o.

(** WhiteSpace and LineTerminator code units below 256: TAB, LF, VT, FF,
    CR, SPACE and NO-BREAK SPACE. *)
Definition is_white_space (c : ascii) : bool :=
  let n := nat_of_ascii c in
  (n =? 9)%nat || (n =? 10)%nat || (n =? 11)%nat || (n =? 12)%nat
  || (n =? 13)%nat || (n =? 32)%nat || (n =? 160)%nat.

Fixpoint trimStart (s : string) : string :=
  match s with
  | EmptyString => EmptyString
  | String c s' => if is_white_space c then trimStart s' else s
  end.

Fixpoint trimEnd (s : string) : string :=
  match s with
  | EmptyString => EmptyString
  | String c s' =>
      match trimEnd s' with
      | EmptyString => if is_white_space c then EmptyString else String c EmptyString
      | t => String c t
      end
  end.

(** [String.prototype.trim]. *)
Definition trim (s : string) : string := trimEnd (trimStart s).

(** [value.slice(0, n)] for a non-negative [n]. *)
Definition slice0 (n : nat) (value : string) : string := substring 0 n value.

(** ** The phase function *)

Inductive Phase :=
  | start
  | phase_game_over
  | human_propose
  | waiting_ai_decision
  | waiting_ai_proposal
  | human_decide
  | waiting.

(** [gameState.messages[gameState.messages.length - 1]]. *)
Definition lastMessageOf (msgs : list Message) : option Message :=
  msgs !! (length msgs - 1)%nat.

Definition getCurrentPhase (gameState : option GameState) : Phase :=
  match gameState with
  | None => start
  | Some gs =>
      if game_over gs then phase_game_over else
      match messages gs with
      | None => human_propose
      | Some [] => human_propose
      | Some msgs =>
          let lastMessage := lastMessageOf msgs in
          if (Z.rem (current_round gs) 2 =? 1)%Z then
            match lastMessage with
            | None => human_propose
            | Some m =>
                if String.eqb (role m) "decider" then human_propose
                else waiting_ai_decision
            end
          else
            match lastMessage with
            | None => waiting_ai_proposal
            | Some m =>
                if String.eqb (role m) "decider" then waiting_ai_proposal
                else if String.eqb (player m) "ai" && String.eqb (role m) "proposer"
                then human_decide
                else waiting
            end
      end
  end.

(** ** The "big win" predicate *)

Definition isWinner (state : option GameState) : bool :=
  match state with
  | None => false
  | Some st =>
      (30 <? human_score st)%Z || (10 <? human_score st - ai_score st)%Z
  end.

(** ** Rendering of proposals *)

(** The children of a rendered element, in order: literal text, a text in
    bold, or an interpolated number. *)
Inductive piece :=
  | Txt (s : string)
  | Strong (s : string)
  | Num (z : Z).

(** An interpolated nullable number: [{null}] renders nothing. *)
Definition interpolate (o : option Z) : list piece :=
  match o with
  | Some z => [Num z]
  | None => []
  end.

(** The proposal line of one entry of the game history:
    [msg.role === 'proposer' && msg.proposal !== null && <span>...</span>]. *)
Definition historyProposal (msg : Message) : option (list piece) :=
  if String.eqb (role msg) "proposer" && bool_decide (proposal msg ≠ None) then
    Some ([Txt " Proposed "] ++ interpolate (proposal msg)
          ++ [Txt " points for you, "; Num (10 - to_number (proposal msg));
              Txt " points for AI"])
  else None.

(** The paragraph of the [human_decide] panel that shows the proposal to
    decide on. [None] stands for [return null]. *)
Definition decidePanelProposal (gameState : GameState) : option (list piece) :=
  match messages gameState with
  | None => None
  | Some [] => None
  | Some msgs =>
      lastProposal ← lastMessageOf msgs;
      Some ([Strong "AI proposes:"; Txt " "] ++ interpolate (proposal lastProposal)
            ++ [Txt " points for you, ";
                Num (10 - to_number (proposal lastProposal));
                Txt " points for AI"])
  end.

(** ** Component state *)

Record AppState := {
  gameState : option GameState;
  sessionId : option string;
  loading : bool;
  error : string;
  showNameDialog : bool;
  playerName : string;
  leaderboard : list LeaderboardEntry;
  showFullLeaderboard : bool;
  leaderboardSort : string;
  leaderboardPage : Z;
  leaderboardTotalPages : Z;
  proposalPoints : Z;
  proposalMessage : string;
  decisionMessage : string
}.

(** The values given to [useState]. *)
Definition initialState : AppState := {|
  gameState := None;
  sessionId := None;
  loading := false;
  error := "";
  showNameDialog := false;
  playerName := "";
  leaderboard := [];
  showFullLeaderboard := false;
  leaderboardSort := "score";
  leaderboardPage := 1;
  leaderboardTotalPages := 1;
  proposalPoints := 5;
  proposalMessage := "";
  decisionMessage := ""
|}.

(** The setters returned by [useState]. *)
Definition setGameState (v : option GameState) (s : AppState) : AppState :=
  {| gameState := v;
     sessionId := sessionId s;
     loading := loading s;
     error := error s;
     showNameDialog := showNameDialog s;
     playerName := playerName s;
     leaderboard := leaderboard s;
     showFullLeaderboard := showFullLeaderboard s;
     leaderboardSort := leaderboardSort s;
     leaderboardPage := leaderboardPage s;
     leaderboardTotalPages := leaderboardTotalPages s;
     proposalPoints := proposalPoints s;
     proposalMessage := proposalMessage s;
     decisionMessage := decisionMessage s |}.

Definition setSessionId (v : option string) (s : AppState) : AppState :=
  {| gameState := gameState s;
     sessionId := v;
     loading := loading s;
     error := error s;
     showNameDialog := showNameDialog s;
     playerName := playerName s;
     leaderboard := leaderboard s;
     showFullLeaderboard := showFullLeaderboard s;
     leaderboardSort := leaderboardSort s;
     leaderboardPage := leaderboardPage s;
     leaderboardTotalPages := leaderboardTotalPages s;
     proposalPoints := proposalPoints s;
     proposalMessage := proposalMessage s;
     decisionMessage := decisionMessage s |}.

Definition setLoading (v : bool) (s : AppState) : AppState :=
  {| gameState := gameState s;
     sessionId := sessionId s;
     loading := v;
     error := error s;
     showNameDialog := showNameDialog s;
     playerName := playerName s;
     leaderboard := leaderboard s;
     showFullLeaderboard := showFullLeaderboard s;
     leaderboardSort := leaderboardSort s;
     leaderboardPage := leaderboardPage s;
     leaderboardTotalPages := leaderboardTotalPages s;
     proposalPoints := proposalPoints s;
     proposalMessage := proposalMessage s;
     decisionMessage := decisionMessage s |}.

Definition setError (v : string) (s : AppState) : AppState :=
  {| gameState := gameState s;
     sessionId := sessionId s;
     loading := loading s;
     error := v;
     showNameDialog := showNameDialog s;
     playerName := playerName s;
     leaderboard := leaderboard s;
     showFullLeaderboard := showFullLeaderboard s;
     leaderboardSort := leaderboardSort s;
     leaderboardPage := leaderboardPage s;
     leaderboardTotalPages := leaderboardTotalPages s;
     proposalPoints := proposalPoints s;
     proposalMessage := proposalMessage s;
     decisionMessage := decisionMessage s |}.

Definition setShowNameDialog (v : bool) (s : AppState) : AppState :=
  {| gameState := gameState s;
     sessionId := sessionId s;
     loading := loading s;
     error := error s;
     showNameDialog := v;
     playerName := playerName s;
     leaderboard := leaderboard s;
     showFullLeaderboard := showFullLeaderboard s;
     leaderboardSort := leaderboardSort s;
     leaderboardPage := leaderboardPage s;
     leaderboardTotalPages := leaderboardTotalPages s;
     proposalPoints := proposalPoints s;
     proposalMessage := proposalMessage s;
     decisionMessage := decisionMessage s |}.

Definition setPlayerName (v : string) (s : AppState) : AppState :=
  {| gameState := gameState s;
     sessionId := sessionId s;
     loading := loading s;
     error := error s;
     showNameDialog := showNameDialog s;
     playerName := v;
     leaderboard := leaderboard s;
     showFullLeaderboard := showFullLeaderboard s;
     leaderboardSort := leaderboardSort s;
     leaderboardPage := leaderboardPage s;
     leaderboardTotalPages := leaderboardTotalPages s;
     proposalPoints := proposalPoints s;
     proposalMessage := proposalMessage s;
     decisionMessage := decisionMessage s |}.

Definition setLeaderboard (v : list LeaderboardEntry) (s : AppState) : AppState :=
  {| gameState := gameState s;
     sessionId := sessionId s;
     loading := loading s;
     error := error s;
     showNameDialog := showNameDialog s;
     playerName := playerName s;
     leaderboard := v;
     showFullLeaderboard := showFullLeaderboard s;
     leaderboardSort := leaderboardSort s;
     leaderboardPage := leaderboardPage s;
     leaderboardTotalPages := leaderboardTotalPages s;
     proposalPoints := proposalPoints s;
     proposalMessage := proposalMessage s;
     decisionMessage := decisionMessage s |}.

Definition setShowFullLeaderboard (v : bool) (s : AppState) : AppState :=
  {| gameState := gameState s;
     sessionId := sessionId s;
     loading := loading s;
     error := error s;
     showNameDialog := showNameDialog s;
     playerName := playerName s;
     leaderboard := leaderboard s;
     showFullLeaderboard := v;
     leaderboardSort := leaderboardSort s;
     leaderboardPage := leaderboardPage s;
     leaderboardTotalPages := leaderboardTotalPages s;
     proposalPoints := proposalPoints s;
     proposalMessage := proposalMessage s;
     decisionMessage := decisionMessage s |}.

Definition setLeaderboardSort (v : string) (s : AppState) : AppState :=
  {| gameState := gameState s;
     sessionId := sessionId s;
     loading := loading s;
     error := error s;
     showNameDialog := showNameDialog s;
     playerName := playerName s;
     leaderboard := leaderboard s;
     showFullLeaderboard := showFullLeaderboard s;
     leaderboardSort := v;
     leaderboardPage := leaderboardPage s;
     leaderboardTotalPages := leaderboardTotalPages s;
     proposalPoints := proposalPoints s;
     proposalMessage := proposalMessage s;
     decisionMessage := decisionMessage s |}.

Definition setLeaderboardPage (v : Z) (s : AppState) : AppState :=
  {| gameState := gameState s;
     sessionId := sessionId s;
     loading := loading s;
     error := error s;
     showNameDialog := showNameDialog s;
     playerName := playerName s;
     leaderboard := leaderboard s;
     showFullLeaderboard := showFullLeaderboard s;
     leaderboardSort := leaderboardSort s;
     leaderboardPage := v;
     leaderboardTotalPages := leaderboardTotalPages s;
     proposalPoints := proposalPoints s;
     proposalMessage := proposalMessage s;
     decisionMessage := decisionMessage s |}.

Definition setLeaderboardTotalPages (v : Z) (s : AppState) : AppState :=
  {| gameState := gameState s;
     sessionId := sessionId s;
     loading := loading s;
     error := error s;
     showNameDialog := showNameDialog s;
     playerName := playerName s;
     leaderboard := leaderboard s;
     showFullLeaderboard := showFullLeaderboard s;
     leaderboardSort := leaderboardSort s;
     leaderboardPage := leaderboardPage s;
     leaderboardTotalPages := v;
     proposalPoints := proposalPoints s;
     proposalMessage := proposalMessage s;
     decisionMessage := decisionMessage s |}.

Definition setProposalPoints (v : Z) (s : AppState) : AppState :=
  {| gameState := gameState s;
     sessionId := sessionId s;
     loading := loading s;
     error := error s;
     showNameDialog := showNameDialog s;
     playerName := playerName s;
     leaderboard := leaderboard s;
     showFullLeaderboard := showFullLeaderboard s;
     leaderboardSort := leaderboardSort s;
     leaderboardPage := leaderboardPage s;
     leaderboardTotalPages := leaderboardTotalPages s;
     proposalPoints := v;
     proposalMessage := proposalMessage s;
     decisionMessage := decisionMessage s |}.

Definition setProposalMessage (v : string) (s : AppState) : AppState :=
  {| gameState := gameState s;
     sessionId := sessionId s;
     loading := loading s;
     error := error s;
     showNameDialog := showNameDialog s;
     playerName := playerName s;
     leaderboard := leaderboard s;
     showFullLeaderboard := showFullLeaderboard s;
     leaderboardSort := leaderboardSort s;
     leaderboardPage := leaderboardPage s;
     leaderboardTotalPages := leaderboardTotalPages s;
     proposalPoints := proposalPoints s;
     proposalMessage := v;
     decisionMessage := decisionMessage s |}.

Definition setDecisionMessage (v : string) (s : AppState) : AppState :=
  {| gameState := gameState s;
     sessionId := sessionId s;
     loading := loading s;
     error := error s;
     showNameDialog := showNameDialog s;
     playerName := playerName s;
     leaderboard := leaderboard s;
     showFullLeaderboard := showFullLeaderboard s;
     leaderboardSort := leaderboardSort s;
     leaderboardPage := leaderboardPage s;
     leaderboardTotalPages := leaderboardTotalPages s;
     proposalPoints := proposalPoints s;
     proposalMessage := proposalMessage s;
     decisionMessage := v |}.

(** ** Effects and outcomes *)

Definition STORAGE_KEY : string := "unfairness_player_name".

(** A request sent with [fetch]; the endpoint and the JSON body. *)
Inductive request :=
  | ReqLeaderboard (sort_by : string) (page page_size : Z)
  | ReqNewGame (req_player_name : option string)
  | ReqGetGame (id : string)
  | ReqPatchGame (id : option string) (req_player_name : string)
  | ReqPropose (req_session_id : option string) (human_points : Z) (req_message : string)
  | ReqDecide (req_session_id : option string) (accept : bool) (req_message : string)
  | ReqAiPropose (req_session_id : option string).

(** The callbacks handed to [setTimeout]. *)
Inductive callback := CallAiPropose.

Inductive effect :=
  | Fetch (r : request)
  | SetTimeout (cb : callback) (ms : Z)
  | LocalStorageSet (key value : string).

(** What [await fetch(...)] followed by [await response.json()] yields:
    the parsed body, or an exception with its [message]. *)
Inductive fetch_result (A : Type) :=
  | FetchOk (data : A)
  | FetchThrow (err_message : string).
Arguments FetchOk {A} data.
Arguments FetchThrow {A} err_message.

(** What a handler leaves behind: the next state and the effects issued,
    or, when a state updater throws while React renders, the effects
    alone. *)
Inductive result :=
  | Next (s : AppState) (effs : list effect)
  | RenderError (effs : list effect).

Definition effects_of (r : result) : list effect :=
  match r with
  | Next _ effs => effs
  | RenderError effs => effs
  end.

(** The message of the TypeError raised by reading a property of [null]. *)
Definition null_property_error (prop : string) : string :=
  "Cannot read properties of null (reading '" +:+ prop +:+ "')".

(** ** Handlers and effects of the component *)

Definition fetchLeaderboard (s : AppState) (resp : fetch_result LeaderboardData)
  : AppState * list effect :=
  let req := Fetch (ReqLeaderboard (leaderboardSort s) (leaderboardPage s) 10) in
  match resp with
  | FetchOk data =>
      (setLeaderboardTotalPages (total_pages data) (setLeaderboard (entries data) s), [req])
  | FetchThrow _ => (s, [req])
  end.

(** The effect run once on mount; [savedName] is
    [localStorage.getItem(STORAGE_KEY)]. *)
Definition mountEffect (s : AppState) (savedName : option string)
    (resp : fetch_result LeaderboardData) : AppState * list effect :=
  let s1 := if truthy_str savedName
            then setPlayerName (trim (default "" savedName)) s else s in
  fetchLeaderboard s1 resp.

(** [gameState?.game_over] as a condition. *)
Definition game_over_opt (g : option GameState) : bool :=
  match g with
  | Some gs => game_over gs
  | None => false
  end.

(** The effect on [gameState?.game_over], [leaderboardSort] and
    [leaderboardPage]. *)
Definition leaderboardEffect (s : AppState) (resp : fetch_result LeaderboardData)
  : AppState * list effect :=
  if game_over_opt (gameState s) || truthy_str (Some (leaderboardSort s))
     || truthy_num (leaderboardPage s)
  then fetchLeaderboard s resp
  else (s, []).

Definition handleScoreClick (s : AppState) (shiftKey metaKey ctrlKey : bool) : AppState :=
  if shiftKey && (metaKey || ctrlKey) then setShowNameDialog true s else s.

(** [async (id = sessionId) => ...]: the default stands in for an
    [undefined] argument only; [closed] is the [sessionId] the handler
    closed over. *)
Definition fetchGameState (s : AppState) (closed : option string)
    (id : option (option string)) (resp : fetch_result GameState)
  : AppState * list effect :=
  match default closed id with
  | Some i =>
      if String.eqb i "" then (s, []) else
      match resp with
      | FetchOk data => (setGameState (Some data) s, [Fetch (ReqGetGame i)])
      | FetchThrow e =>
          (setError ("Failed to fetch game state: " +:+ e) s, [Fetch (ReqGetGame i)])
      end
  | None => (s, [])
  end.

(** [playerName?.trim() || null]. *)
Definition trimmed_or_null (name : string) : option string :=
  let t := trim name in if String.eqb t "" then None else Some t.

Definition startNewGame (s : AppState) (resp : fetch_result NewGameData)
    (game : fetch_result GameState) : AppState * list effect :=
  let s1 := setError "" (setLoading true s) in
  let req := Fetch (ReqNewGame (trimmed_or_null (playerName s))) in
  match resp with
  | FetchOk data =>
      let s2 := setSessionId (default None (session_id data)) s1 in
      let '(s3, effs) := fetchGameState s2 (sessionId s) (session_id data) game in
      (setLoading false s3, req :: effs)
  | FetchThrow e =>
      (setLoading false (setError ("Failed to start new game: " +:+ e) s1), [req])
  end.

Definition handleProposalMessageChange (s : AppState) (value : string) : AppState :=
  setProposalMessage (slice0 256 value) s.

Definition handleDecisionMessageChange (s : AppState) (value : string) : AppState :=
  setDecisionMessage (slice0 256 value) s.

Definition submitPlayerName (s : AppState) (resp : fetch_result GameState)
  : AppState * list effect :=
  let trimmedName := trim (playerName s) in
  if String.eqb trimmedName "" then (s, []) else
  let s1 := setLoading true s in
  let effs := [LocalStorageSet STORAGE_KEY trimmedName;
               Fetch (ReqPatchGame (sessionId s) trimmedName)] in
  let s2 := match resp with
            | FetchOk data => setGameState (Some data) s1
            | FetchThrow e => setError ("Failed to save name: " +:+ e) s1
            end in
  (setShowNameDialog false (setLoading false s2), effs).

(** [{...prev, messages: msgs}]. *)
Definition with_messages (msgs : list Message) (prev : GameState) : GameState :=
  {| current_round := current_round prev;
     human_score := human_score prev;
     ai_score := ai_score prev;
     game_over := game_over prev;
     winner := winner prev;
     player_name := player_name prev;
     messages := Some msgs |}.

(** The identity of a newly created object differs from the identity of
    every message held by the state. *)
Definition fresh_oid (msgs : list Message) : nat := S (max_list (oid <$> msgs)).

(** [prev => ({...prev, messages: [...prev.messages, tempMessage]})];
    [None] when reading or spreading [prev.messages] throws. *)
Definition appendMessage (tempMessage : Message) (prev : option GameState)
  : option GameState :=
  gs ← prev;
  msgs ← messages gs;
  Some (with_messages (msgs ++ [tempMessage]) gs).

(** [prev => ({...prev, messages: prev.messages.filter(m => m !== tempMessage)})]. *)
Definition removeMessage (tempMessage : Message) (prev : option GameState)
  : option GameState :=
  gs ← prev;
  msgs ← messages gs;
  Some (with_messages (filter (λ m, oid m ≠ oid tempMessage) msgs) gs).

(** [setGameState(updater)]. *)
Definition updateGameState (updater : option GameState → option GameState)
    (s : AppState) : option AppState :=
  g ← updater (gameState s);
  Some (setGameState (Some g) s).

(** The test guarding [setTimeout(() => aiPropose(), 1000)], shared by
    [makeProposal] and [makeDecision]; [gs] is the [gameState] the handler
    closed over. *)
Definition roundMovedToAi (data gs : GameState) : bool :=
  (current_round gs <? current_round data)%Z
  && negb (game_over data)
  && (Z.rem (current_round data) 2 =? 0)%Z.

Definition makeProposal (s : AppState) (resp : fetch_result GameState) : result :=
  if negb (truthy_str (sessionId s)) then Next s [] else
  let s1 := setError "" (setLoading true s) in
  match gameState s with
  | None => Next s1 []
  | Some gs =>
      let tempMessage :=
        {| oid := fresh_oid (default [] (messages gs));
           player := "human";
           proposal := Some (proposalPoints s);
           message := proposalMessage s;
           round_num := current_round gs;
           role := "proposer";
           decision := None |} in
      let req := Fetch (ReqPropose (sessionId s) (proposalPoints s) (proposalMessage s)) in
      let effs :=
        match resp with
        | FetchOk data =>
            if roundMovedToAi data gs then [req; SetTimeout CallAiPropose 1000] else [req]
        | FetchThrow _ => [req]
        end in
      match updateGameState (appendMessage tempMessage) s1 with
      | None => RenderError effs
      | Some s2 =>
          match resp with
          | FetchOk data =>
              Next (setLoading false (setProposalMessage "" (setGameState (Some data) s2))) effs
          | FetchThrow e =>
              let s3 := setError ("Failed to make proposal: " +:+ e) s2 in
              match updateGameState (removeMessage tempMessage) s3 with
              | None => RenderError effs
              | Some s4 => Next (setLoading false s4) effs
              end
          end
      end
  end.

Definition makeDecision (s : AppState) (accept : bool) (resp : fetch_result GameState)
  : AppState * list effect :=
  if negb (truthy_str (sessionId s)) then (s, []) else
  let s1 := setError "" (setLoading true s) in
  let req := Fetch (ReqDecide (sessionId s) accept (decisionMessage s)) in
  match resp with
  | FetchOk data =>
      let s2 := setDecisionMessage "" (setGameState (Some data) s1) in
      match gameState s with
      | None =>
          (setLoading false
             (setError ("Failed to make decision: " +:+ null_property_error "current_round") s2),
           [req])
      | Some gs =>
          (setLoading false s2,
           if roundMovedToAi data gs then [req; SetTimeout CallAiPropose 1000] else [req])
      end
  | FetchThrow e =>
      (setLoading false (setError ("Failed to make decision: " +:+ e) s1), [req])
  end.

Definition aiPropose (s : AppState) (resp : fetch_result GameState)
  : AppState * list effect :=
  if negb (truthy_str (sessionId s)) then (s, []) else
  let s1 := setLoading true s in
  let s2 := match resp with
            | FetchOk data => setGameState (Some data) s1
            | FetchThrow e => setError ("Failed to get AI proposal: " +:+ e) s1
            end in
  (setLoading false s2, [Fetch (ReqAiPropose (sessionId s))]).

(** The condition of the effect that opens the name dialog. *)
Definition nameDialogDue (s : AppState) : bool :=
  game_over_opt (gameState s)
  && isWinner (gameState s)
  && negb (truthy_str (gameState s ≫= player_name))
  && negb (showNameDialog s).

Definition nameDialogEffect (s : AppState) : AppState :=
  if nameDialogDue s then setShowNameDialog true s else s.

(** The [onClick] handlers of [LeaderboardControls]. *)
Definition onSortClick (sort : string) (s : AppState) : AppState :=
  setLeaderboardPage 1 (setLeaderboardSort sort s).

Definition onPreviousPage (s : AppState) : AppState :=
  setLeaderboardPage (Z.max 1 (leaderboardPage s - 1)) s.

Definition onNextPage (s : AppState) : AppState :=
  setLeaderboardPage (Z.min (leaderboardTotalPages s) (leaderboardPage s + 1)) s.

(** The earlier revision of the component, where it differs. *)
Module Legacy.

Definition STORAGE_KEY : string := "trustmeclaude_player_name".

Definition submitPlayerName (s : AppState) (resp : fetch_result GameState)
  : AppState * list effect :=
  if String.eqb (trim (playerName s)) "" then (s, []) else
  let s1 := setLoading true s in
  let effs := [LocalStorageSet STORAGE_KEY (playerName s);
               Fetch (ReqPatchGame (sessionId s) (playerName s))] in
  let s2 := match resp with
            | FetchOk data => setShowNameDialog false (setGameState (Some data) s1)
            | FetchThrow e => setError ("Failed to save name: " +:+ e) s1
            end in
  (setLoading false s2, effs).

End Legacy.

(** ** The component as a transition system *)

(** What can happen to the mounted component: an effect runs, the user
    acts on a control, or a timer fires. An event carries what the
    environment contributes: the value typed, the outcome of the request.
    A handler runs to its end within one event, and every event may occur
    in every state: whether a control is rendered or disabled is left
    out, which only adds behaviours. *)
Inductive event :=
  | EvMount (savedName : option string) (resp : fetch_result LeaderboardData)
  | EvLeaderboardEffect (resp : fetch_result LeaderboardData)
  | EvNameDialogEffect
  | EvScoreClick (shiftKey metaKey ctrlKey : bool)
  | EvStartNewGame (resp : fetch_result NewGameData) (game : fetch_result GameState)
  | EvProposalPointsChange (value : Z)
  | EvProposalMessageChange (value : string)
  | EvDecisionMessageChange (value : string)
  | EvPlayerNameChange (value : string)
  | EvSubmitPlayerName (resp : fetch_result GameState)
  | EvSkipNameDialog
  | EvMakeProposal (resp : fetch_result GameState)
  | EvMakeDecision (accept : bool) (resp : fetch_result GameState)
  | EvAiPropose (resp : fetch_result GameState)
  | EvSortScore
  | EvSortDifference
  | EvPreviousPage
  | EvNextPage
  | EvShowFullLeaderboard (show : bool).

Definition ok (r : AppState * list effect) : result := Next r.1 r.2.

Definition step (s : AppState) (ev : event) : result :=
  match ev with
  | EvMount savedName resp => ok (mountEffect s savedName resp)
  | EvLeaderboardEffect resp => ok (leaderboardEffect s resp)
  | EvNameDialogEffect => Next (nameDialogEffect s) []
  | EvScoreClick shiftKey metaKey ctrlKey =>
      Next (handleScoreClick s shiftKey metaKey ctrlKey) []
  | EvStartNewGame resp game => ok (startNewGame s resp game)
  | EvProposalPointsChange value => Next (setProposalPoints value s) []
  | EvProposalMessageChange value => Next (handleProposalMessageChange s value) []
  | EvDecisionMessageChange value => Next (handleDecisionMessageChange s value) []
  | EvPlayerNameChange value => Next (setPlayerName value s) []
  | EvSubmitPlayerName resp => ok (submitPlayerName s resp)
  | EvSkipNameDialog => Next (setShowNameDialog false s) []
  | EvMakeProposal resp => makeProposal s resp
  | EvMakeDecision accept resp => ok (makeDecision s accept resp)
  | EvAiPropose resp => ok (aiPropose s resp)
  | EvSortScore => Next (onSortClick "score" s) []
  | EvSortDifference => Next (onSortClick "difference" s) []
  | EvPreviousPage => Next (onPreviousPage s) []
  | EvNextPage => Next (onNextPage s) []
  | EvShowFullLeaderboard show => Next (setShowFullLeaderboard show s) []
  end.

(** The states the component can be in after a sequence of events that
    are all [allowed]. *)
Inductive reachable_by (allowed : event → Prop) : AppState → Prop :=
  | reachable_init : reachable_by allowed initialState
  | reachable_step s ev s' effs :
      reachable_by allowed s → allowed ev → step s ev = Next s' effs →
      reachable_by allowed s'.

(** The states the component can be in after any sequence of events. *)
Definition reachable : AppState → Prop := reachable_by (λ _, True).

(** Modelled from the spec: the session state machine of the backend is
    not among the sources; the spec gives [currentRound] as an integer
    from 1 on, advanced only by a decision, which is recorded in the
    ledger first, so that from round 2 on the ledger is not empty. *)
Definition session_as_specified (gs : GameState) : Prop :=
  (1 ≤ current_round gs)%Z
  ∧ ((2 ≤ current_round gs)%Z → ∃ msgs, messages gs = Some msgs ∧ msgs ≠ []).

(** Modelled from the spec: the leaderboard endpoint of the backend is not
    among the sources; the spec gives its [totalPages] as
    [ceil(totalEntries / pageSize)], "minimum 1 even when empty". An event
    is as specified when the leaderboard answer it carries, if any, has
    such a page count. *)
Definition leaderboard_as_specified (ev : event) : Prop :=
  match ev with
  | EvMount _ (FetchOk data) | EvLeaderboardEffect (FetchOk data) =>
      (1 ≤ total_pages data)%Z
  | _ => True
  end.

(** ** Rendering of the game and of the leaderboard *)

#[global] Instance Phase_eq_dec : EqDecision Phase.
Proof. solve_decision. Defined.

(** The text of the span shown for a decision. *)
Inductive decisionLine := Accepted | Rejected.

(** What the game history shows for one message: the heading of its
    round, who speaks, the proposal or the decision, the quoted text. *)
Record historyItem := {
  item_header : option Z;
  item_speaker : string;
  item_proposal : option (list piece);
  item_decision : option decisionLine;
  item_quote : option string
}.

(** [idx === 0 || msg.round_num !== gameState.messages[idx - 1].round_num]
    guards the heading "Round n"; [map] never leaves the list, so the
    message before a later one is there. *)
Definition roundHeader (msgs : list Message) (idx : nat) (msg : Message) : option Z :=
  if bool_decide (idx = 0%nat) then Some (round_num msg) else
  prev ← msgs !! (idx - 1)%nat;
  if negb (round_num msg =? round_num prev)%Z then Some (round_num msg) else None.

Definition historyItemOf (msgs : list Message) (idx : nat) (msg : Message) : historyItem :=
  {| item_header := roundHeader msgs idx msg;
     item_speaker := if String.eqb (player msg) "human" then "You" else "AI";
     item_proposal := historyProposal msg;
     item_decision :=
       if String.eqb (role msg) "decider" then
         match decision msg with
         | Some true => Some Accepted
         | Some false => Some Rejected
         | None => None
         end
       else None;
     item_quote := if String.eqb (message msg) "" then None else Some (message msg) |}.

(** The game history; [None] is the line "No messages yet". *)
Definition renderHistory (gs : GameState) : option (list historyItem) :=
  match messages gs with
  | None => None
  | Some [] => None
  | Some msgs => Some (imap (historyItemOf msgs) msgs)
  end.

(** The panels under "Game Actions". *)
Inductive actionPanel :=
  | PanelPropose
  | PanelDecide (shown : option (list piece))
  | PanelWaiting (text : string).

Definition waitingText (phase : Phase) : string :=
  if bool_decide (phase = waiting_ai_decision)
  then "Waiting for AI to decide on your proposal..."
  else if bool_decide (phase = waiting_ai_proposal)
  then "Waiting for AI to make a proposal..."
  else "AI is thinking...".

(** The panels rendered for a game: none once it is over, else one for
    each of the three conditions on [phase] that holds. *)
Definition gameActions (gs : GameState) : list actionPanel :=
  let phase := getCurrentPhase (Some gs) in
  if game_over gs then [] else
  (if bool_decide (phase = human_propose) then [PanelPropose] else [])
  ++ (if bool_decide (phase = human_decide)
      then [PanelDecide (decidePanelProposal gs)] else [])
  ++ (if bool_decide (phase = waiting_ai_decision)
         || bool_decide (phase = waiting_ai_proposal)
         || bool_decide (phase = waiting)
      then [PanelWaiting (waitingText phase)] else []).

(** A cell of the leaderboard table. *)
Inductive cell :=
  | CellText (s : string)
  | CellNum (z : Z)
  | CellDate (iso : string).

Definition tableHeader (sortBy : string) : list string :=
  ["Rank"; "Player"]
  ++ (if String.eqb sortBy "difference" then ["Diff"] else [])
  ++ ["Score"; "AI Score"]
  ++ (if String.eqb sortBy "score" then ["Diff"] else [])
  ++ ["Date"].

Definition tableRow (sortBy : string) (index : nat) (entry : LeaderboardEntry)
  : list cell :=
  [CellNum (Z.of_nat index + 1); CellText (entry_player_name entry)]
  ++ (if String.eqb sortBy "difference"
      then [CellNum (entry_human_score entry - entry_ai_score entry)] else [])
  ++ [CellNum (entry_human_score entry); CellNum (entry_ai_score entry)]
  ++ (if String.eqb sortBy "score"
      then [CellNum (entry_human_score entry - entry_ai_score entry)] else [])
  ++ [CellDate (created_at entry)].

(** The header and the rows of [LeaderboardTable]; colours and weights
    are left out. *)
Definition LeaderboardTable (entries : list LeaderboardEntry) (sortBy : string)
  : list string * list (list cell) :=
  (tableHeader sortBy, imap (tableRow sortBy) entries).

(** The preview of the welcome screen: the first four entries, when there
    is any. *)
Definition previewTable (s : AppState) : option (list string * list (list cell)) :=
  match gameState s with
  | Some _ => None
  | None =>
      if bool_decide (0 < length (leaderboard s))%nat
      then Some (LeaderboardTable (take 4 (leaderboard s)) (leaderboardSort s))
      else None
  end.

(** [disabled] of the two paging buttons. *)
Definition previousDisabled (s : AppState) : bool := (leaderboardPage s =? 1)%Z.

Definition nextDisabled (s : AppState) : bool :=
  (leaderboardPage s =? leaderboardTotalPages s)%Z.

(** The sort order is one of the two the buttons set. *)
Definition known_sort (s : AppState) : Prop :=
  leaderboardSort s = "score" ∨ leaderboardSort s = "difference".

(** ** Invariants *)

(** Both message fields are within the cap. *)
Definition capped (s : AppState) : Prop :=
  String.length (proposalMessage s) ≤ 256
  ∧ String.length (decisionMessage s) ≤ 256.

(** Unfolds the handlers of the component. *)
Ltac unfold_handlers :=
  unfold ok, mountEffect, leaderboardEffect, fetchLeaderboard, nameDialogEffect,
    handleScoreClick, startNewGame, fetchGameState, handleProposalMessageChange,
    handleDecisionMessageChange, submitPlayerName, makeProposal, makeDecision,
    aiPropose, updateGameState, onSortClick, onPreviousPage, onNextPage in *.

(** The page and the page count held by the state are at least 1. *)
Definition paged (s : AppState) : Prop :=
  (1 ≤ leaderboardPage s)%Z ∧ (1 ≤ leaderboardTotalPages s)%Z.

(** ** Data for examples *)

(** A game state for examples: round [r], with the messages [msgs]. *)
Definition game_in_round (r : Z) (over : bool) (msgs : option (list Message))
  : GameState :=
  {| current_round := r; human_score := 0; ai_score := 0; game_over := over;
     winner := None; player_name := None; messages := msgs |}.

(** A message for examples: by [who], in the role [as_role]. *)
Definition message_of (who as_role : string) (points : option Z) : Message :=
  {| oid := 0; player := who; role := as_role; proposal := points;
     decision := None; message := ""; round_num := 1 |}.

(** A state for examples: a session in round [r] of a game in progress. *)
Definition session_in_round (r : Z) : AppState :=
  setGameState (Some (game_in_round r false (Some [])))
    (setSessionId (Some "s1") initialState).

(** ** Tactics *)

(** Closes a goal whose hypothesis [H] puts a timer among requests. *)
Ltac absurd_elem H :=
  exfalso; rewrite ?elem_of_cons, ?elem_of_nil in H; intuition discriminate.

(** * Properties *)

(** ** Remainders *)

Lemma rem2_is_1 (r : Z) : (0 ≤ r)%Z → (Z.rem r 2 =? 1)%Z = Z.odd r.
Proof.
  intros Hr. rewrite Z.rem_mod_nonneg by lia. symmetry. apply Zodd_mod.
Qed.

Lemma rem2_is_0 (r : Z) : (Z.rem r 2 =? 0)%Z = Z.even r.
Proof.
  destruct (Z.even r) eqn:He.
  - apply Z.eqb_eq, Z.rem_mod_eq_0; [lia|].
    rewrite Zmod_odd, <- Z.negb_even, He. done.
  - apply Z.eqb_neq. intros H%Z.rem_mod_eq_0; [|lia].
    rewrite Zmod_odd, <- Z.negb_even, He in H. done.
Qed.

(** ** The last message *)

Lemma lastMessageOf_is_Some (m : Message) (msgs : list Message) :
  is_Some (lastMessageOf (m :: msgs)).
Proof.
  apply lookup_lt_is_Some. simpl. lia.
Qed.

(** ** The phase function *)

(** The phase of a game in progress with a non-empty list of messages,
    read off the last message. *)
Lemma getCurrentPhase_last (gs : GameState) (msgs : list Message) (m : Message) :
  game_over gs = false →
  messages gs = Some msgs →
  lastMessageOf msgs = Some m →
  getCurrentPhase (Some gs) =
    if (Z.rem (current_round gs) 2 =? 1)%Z then
      if String.eqb (role m) "decider" then human_propose else waiting_ai_decision
    else if String.eqb (role m) "decider" then waiting_ai_proposal
    else if String.eqb (player m) "ai" && String.eqb (role m) "proposer" then human_decide
    else waiting.
Proof.
  intros Hover Hmsgs Hlast. unfold getCurrentPhase. rewrite Hover, Hmsgs.
  destruct msgs as [|m0 l]; [discriminate|]. by rewrite Hlast.
Qed.

Lemma getCurrentPhase_no_messages (gs : GameState) :
  game_over gs = false →
  messages gs = None ∨ messages gs = Some [] →
  getCurrentPhase (Some gs) = human_propose.
Proof.
  intros Hover [Hm|Hm]; unfold getCurrentPhase; by rewrite Hover, Hm.
Qed.

(** A game in progress has no messages, or a last message. *)
Lemma messages_cases (gs : GameState) :
  (messages gs = None ∨ messages gs = Some [])
  ∨ ∃ msgs m, messages gs = Some msgs ∧ lastMessageOf msgs = Some m.
Proof.
  destruct (messages gs) as [[|m0 l]|]; [by left; right| |by left; left].
  right. destruct (lastMessageOf_is_Some m0 l) as [m Hm]. by exists (m0 :: l), m.
Qed.

(** The phases of the first two rounds of a game. *)
Example phase_of_new_game :
  getCurrentPhase (Some (game_in_round 1 false (Some []))) = human_propose.
Proof. reflexivity. Qed.

Example phase_after_human_proposal :
  getCurrentPhase
    (Some (game_in_round 1 false (Some [message_of "human" "proposer" (Some 7%Z)])))
  = waiting_ai_decision.
Proof. reflexivity. Qed.

Example phase_after_ai_proposal :
  getCurrentPhase
    (Some (game_in_round 2 false
             (Some [message_of "human" "proposer" (Some 7%Z);
                    message_of "ai" "decider" None;
                    message_of "ai" "proposer" (Some 4%Z)])))
  = human_decide.
Proof. reflexivity. Qed.

Example phase_of_finished_game :
  getCurrentPhase (Some (game_in_round 6 true (Some []))) = phase_game_over
  ∧ getCurrentPhase None = start.
Proof. done. Qed.

(** Outside the sessions of the spec the reading by parity fails: in an
    even round with an empty list of messages the guard on the list
    answers [human_propose] before the round is looked at. *)
Example getCurrentPhase_even_round_no_messages :
  let gs := game_in_round 2 false (Some []) in
  game_over gs = false
  ∧ Z.odd (current_round gs) = false
  ∧ getCurrentPhase (Some gs) = human_propose.
Proof. by vm_compute. Qed.

(** C1: for a game in progress of a session as the spec has it, the phase
    is [human_propose] only if the round is odd, and is
    [waiting_ai_proposal] or [human_decide] only if the round is even; in
    an odd round with an empty list of messages or a last message of role
    'decider' the phase is [human_propose], and in an even round with a
    last message of role 'decider' it is [waiting_ai_proposal]. *)
Theorem getCurrentPhase_proposer_parity (gs : GameState) :
  session_as_specified gs →
  game_over gs = false →
  (getCurrentPhase (Some gs) = human_propose → Z.odd (current_round gs) = true)
  ∧ (getCurrentPhase (Some gs) = waiting_ai_proposal
     ∨ getCurrentPhase (Some gs) = human_decide →
     Z.even (current_round gs) = true)
  ∧ (Z.odd (current_round gs) = true →
     messages gs = Some []
     ∨ (∃ msgs m, messages gs = Some msgs ∧ lastMessageOf msgs = Some m
                  ∧ role m = "decider") →
     getCurrentPhase (Some gs) = human_propose)
  ∧ (Z.even (current_round gs) = true →
     ∀ msgs m, messages gs = Some msgs → lastMessageOf msgs = Some m →
               role m = "decider" →
     getCurrentPhase (Some gs) = waiting_ai_proposal).
Proof.
  intros [Hr Hledger] Hover.
  assert (Hr0 : (0 ≤ current_round gs)%Z) by lia.
  assert (Hpar : Z.even (current_round gs) = negb (Z.odd (current_round gs)))
    by (symmetry; apply Z.negb_odd).
  repeat split.
  - destruct (messages_cases gs) as [Hnone|(msgs & m & Hmsgs & Hlast)].
    { intros _.
      assert (Hone : current_round gs = 1%Z).
      { destruct (Z_lt_le_dec (current_round gs) 2) as [|Hge]; [lia|].
        destruct (Hledger Hge) as (msgs & Hmsgs & Hne).
        destruct Hnone as [Hn|Hn]; congruence. }
      by rewrite Hone. }
    rewrite (getCurrentPhase_last gs msgs m), rem2_is_1 by done.
    destruct (Z.odd (current_round gs)); [done|].
    by repeat case_match.
  - destruct (messages_cases gs) as [Hnone|(msgs & m & Hmsgs & Hlast)].
    { rewrite getCurrentPhase_no_messages by done. by intros [?|?]. }
    rewrite (getCurrentPhase_last gs msgs m), rem2_is_1, Hpar by done.
    destruct (Z.odd (current_round gs)); [|done].
    intros [?|?]; by repeat case_match.
  - intros Hodd [Hempty|(msgs & m & Hmsgs & Hlast & Hrole)].
    { apply getCurrentPhase_no_messages; auto. }
    rewrite (getCurrentPhase_last gs msgs m), rem2_is_1, Hodd, Hrole by done.
    done.
  - intros Heven msgs m Hmsgs Hlast Hrole.
    rewrite (getCurrentPhase_last gs msgs m), rem2_is_1 by done.
    rewrite Hpar in Heven. apply negb_true_iff in Heven.
    by rewrite Heven, Hrole.
Qed.

(** C1 at round 2, after the counterpart's decision of round 1. *)
Lemma getCurrentPhase_proposer_parity_witness :
  let gs := game_in_round 2 false
              (Some [message_of "human" "proposer" (Some 7%Z);
                     message_of "ai" "decider" None]) in
  getCurrentPhase (Some gs) = waiting_ai_proposal.
Proof.
  intros gs.
  refine (proj2 (proj2 (proj2 (getCurrentPhase_proposer_parity gs _ _))) _ _ _ _ _ _).
  - split; [vm_compute; discriminate|].
    intros _. eexists. split; [reflexivity|discriminate].
  - reflexivity.
  - reflexivity.
  - reflexivity.
  - reflexivity.
  - reflexivity.
Defined.

(** C10: the phase is [human_decide] exactly when the game is in progress,
    the round is even and the last message is a proposal by 'ai'; in an
    even round whose last message is a proposal by 'human' the phase is
    [waiting]. Rounds are non-negative. *)
Theorem getCurrentPhase_human_decide (gs : GameState) :
  (0 ≤ current_round gs)%Z →
  getCurrentPhase None ≠ human_decide
  ∧ (getCurrentPhase (Some gs) = human_decide ↔
       game_over gs = false
       ∧ Z.even (current_round gs) = true
       ∧ ∃ msgs m, messages gs = Some msgs ∧ lastMessageOf msgs = Some m
                   ∧ role m = "proposer" ∧ player m = "ai")
  ∧ (game_over gs = false →
     Z.even (current_round gs) = true →
     ∀ msgs m, messages gs = Some msgs → lastMessageOf msgs = Some m →
               role m = "proposer" → player m = "human" →
     getCurrentPhase (Some gs) = waiting).
Proof.
  intros Hr.
  assert (Hpar : Z.odd (current_round gs) = negb (Z.even (current_round gs)))
    by (symmetry; apply Z.negb_even).
  split; [done|]. split; [split|].
  - intros Hphase.
    destruct (game_over gs) eqn:Hover.
    { unfold getCurrentPhase in Hphase. by rewrite Hover in Hphase. }
    split; [done|].
    destruct (messages_cases gs) as [Hnone|(msgs & m & Hmsgs & Hlast)].
    { by rewrite getCurrentPhase_no_messages in Hphase. }
    rewrite (getCurrentPhase_last gs msgs m), rem2_is_1, Hpar in Hphase by done.
    destruct (Z.even (current_round gs)); simpl in Hphase.
    + split; [done|]. exists msgs, m.
      destruct (String.eqb (role m) "decider"); [done|].
      destruct (String.eqb (player m) "ai") eqn:Hp; [|done].
      destruct (String.eqb (role m) "proposer") eqn:Hq; [|done].
      by apply String.eqb_eq in Hp, Hq.
    + by destruct (String.eqb (role m) "decider").
  - intros (Hover & Heven & msgs & m & Hmsgs & Hlast & Hrole & Hplayer).
    rewrite (getCurrentPhase_last gs msgs m), rem2_is_1, Hpar, Heven by done.
    by rewrite Hrole, Hplayer.
  - intros Hover Heven msgs m Hmsgs Hlast Hrole Hplayer.
    rewrite (getCurrentPhase_last gs msgs m), rem2_is_1, Hpar, Heven by done.
    by rewrite Hrole, Hplayer.
Qed.

(** C10 at round 2, where the last message is the human's own proposal. *)
Lemma getCurrentPhase_human_decide_witness :
  let gs := game_in_round 2 false (Some [message_of "human" "proposer" (Some 5%Z)]) in
  getCurrentPhase (Some gs) = waiting.
Proof.
  intros gs.
  refine (proj2 (proj2 (getCurrentPhase_human_decide gs _)) _ _ _ _ _ _ _ _).
  - vm_compute. discriminate.
  - reflexivity.
  - reflexivity.
  - reflexivity.
  - reflexivity.
  - reflexivity.
  - reflexivity.
Defined.

(** ** The "big win" predicate *)

(** C3: [isWinner] is false for [null]; for a state it holds exactly when
    [human_score > 30] or [human_score - ai_score > 10]; and it depends on
    the two scores only, so not on the [winner] field. *)
Theorem isWinner_spec :
  isWinner None = false
  ∧ (∀ st, isWinner (Some st) = true ↔
           (30 < human_score st)%Z ∨ (10 < human_score st - ai_score st)%Z)
  ∧ (∀ st st', human_score st = human_score st' → ai_score st = ai_score st' →
               isWinner (Some st) = isWinner (Some st')).
Proof.
  split; [done|]. split.
  - intros st. unfold isWinner.
    rewrite orb_true_iff, !Z.ltb_lt. done.
  - intros st st' Hh Ha. unfold isWinner. by rewrite Hh, Ha.
Qed.

(** C3 on two states with the scores 25 and 14 and different winners. *)
Lemma isWinner_spec_witness :
  isWinner (Some {| current_round := 6; human_score := 25; ai_score := 14;
                    game_over := true; winner := Some "human";
                    player_name := None; messages := Some [] |})
  = isWinner (Some {| current_round := 6; human_score := 25; ai_score := 14;
                      game_over := true; winner := Some "ai";
                      player_name := None; messages := Some [] |}).
Proof.
  apply (proj2 (proj2 isWinner_spec)); reflexivity.
Defined.

(** ** Rendering of proposals *)

(** C2: a proposal [p] carried by a proposer message is shown as [p]
    points for the human and [10 - p] points for the counterpart, in the
    game history and in the panel of the [human_decide] phase, whoever the
    [player] of the message is. *)
Theorem proposal_rendered_in_human_units (msg : Message) (p : Z) :
  role msg = "proposer" →
  proposal msg = Some p →
  historyProposal msg =
    Some [Txt " Proposed "; Num p; Txt " points for you, "; Num (10 - p);
          Txt " points for AI"]
  ∧ ∀ gs msgs,
      messages gs = Some msgs → lastMessageOf msgs = Some msg →
      decidePanelProposal gs =
        Some [Strong "AI proposes:"; Txt " "; Num p; Txt " points for you, ";
              Num (10 - p); Txt " points for AI"].
Proof.
  intros Hrole Hp. split.
  - unfold historyProposal. by rewrite Hrole, Hp.
  - intros gs msgs Hmsgs Hlast. unfold decidePanelProposal. rewrite Hmsgs.
    destruct msgs as [|m0 l]; [discriminate|].
    by rewrite Hlast; simpl; rewrite Hp.
Qed.

(** C2 on a proposal of 3 by the counterpart and on the same proposal by
    the human. *)
Lemma proposal_rendered_in_human_units_witness :
  historyProposal (message_of "ai" "proposer" (Some 3%Z))
  = Some [Txt " Proposed "; Num 3; Txt " points for you, "; Num (10 - 3);
          Txt " points for AI"]
  ∧ historyProposal (message_of "human" "proposer" (Some 3%Z))
    = Some [Txt " Proposed "; Num 3; Txt " points for you, "; Num (10 - 3);
            Txt " points for AI"].
Proof.
  split.
  - apply (proposal_rendered_in_human_units (message_of "ai" "proposer" (Some 3%Z)));
      reflexivity.
  - apply (proposal_rendered_in_human_units (message_of "human" "proposer" (Some 3%Z)));
      reflexivity.
Defined.

(** ** Scheduling of the counterpart's proposal *)

Lemma roundMovedToAi_spec (data gs : GameState) :
  roundMovedToAi data gs = true ↔
    (current_round gs < current_round data)%Z
    ∧ game_over data = false
    ∧ Z.even (current_round data) = true.
Proof.
  unfold roundMovedToAi.
  rewrite !andb_true_iff, Z.ltb_lt, negb_true_iff, rem2_is_0. tauto.
Qed.

(** The effects of [makeProposal], whatever becomes of the state. *)
Lemma makeProposal_effects (s : AppState) (resp : fetch_result GameState) :
  effects_of (makeProposal s resp) =
    if negb (truthy_str (sessionId s)) then [] else
    match gameState s with
    | None => []
    | Some gs =>
        let req := Fetch (ReqPropose (sessionId s) (proposalPoints s) (proposalMessage s)) in
        match resp with
        | FetchOk data =>
            if roundMovedToAi data gs then [req; SetTimeout CallAiPropose 1000] else [req]
        | FetchThrow _ => [req]
        end
    end.
Proof.
  unfold makeProposal.
  destruct (negb (truthy_str (sessionId s))); [done|].
  destruct (gameState s) as [gs|] eqn:Hgs; [|done].
  destruct (updateGameState _ _) as [s2|]; [|done].
  destruct resp as [data|e]; [done|].
  by destruct (updateGameState _ _).
Qed.

Lemma makeDecision_effects (s : AppState) (accept : bool) (resp : fetch_result GameState) :
  (makeDecision s accept resp).2 =
    if negb (truthy_str (sessionId s)) then [] else
    let req := Fetch (ReqDecide (sessionId s) accept (decisionMessage s)) in
    match resp, gameState s with
    | FetchOk data, Some gs =>
        if roundMovedToAi data gs then [req; SetTimeout CallAiPropose 1000] else [req]
    | _, _ => [req]
    end.
Proof.
  unfold makeDecision.
  destruct (negb (truthy_str (sessionId s))); [done|].
  destruct resp as [data|e]; [|done].
  by destruct (gameState s).
Qed.

(** The handlers other than [makeProposal] and [makeDecision] set no
    timer. *)
Lemma fetchLeaderboard_effects (s : AppState) (resp : fetch_result LeaderboardData) :
  (fetchLeaderboard s resp).2 =
    [Fetch (ReqLeaderboard (leaderboardSort s) (leaderboardPage s) 10)].
Proof. by destruct resp. Qed.

Lemma no_timer_in_fetches (cb : callback) (ms : Z) (effs : list effect) :
  Forall (λ e, match e with SetTimeout _ _ => False | _ => True end) effs →
  SetTimeout cb ms ∉ effs.
Proof.
  intros Hall Hin. rewrite Forall_forall in Hall. by apply Hall in Hin.
Qed.

Lemma other_handlers_set_no_timer (s : AppState) (ev : event) :
  (∀ resp, ev ≠ EvMakeProposal resp) →
  (∀ accept resp, ev ≠ EvMakeDecision accept resp) →
  Forall (λ e, match e with SetTimeout _ _ => False | _ => True end)
         (effects_of (step s ev)).
Proof.
  intros Hp Hd.
  destruct ev; simpl; try by constructor.
  - unfold mountEffect. rewrite fetchLeaderboard_effects. by repeat constructor.
  - unfold leaderboardEffect. case_match; [|by constructor].
    rewrite fetchLeaderboard_effects. by repeat constructor.
  - unfold startNewGame, fetchGameState.
    repeat case_match; simplify_eq; simpl; by repeat constructor.
  - unfold submitPlayerName. case_match; simpl; by repeat constructor.
  - by destruct (Hp resp).
  - by destruct (Hd accept resp).
  - unfold aiPropose. case_match; simpl; by repeat constructor.
Qed.

(** An event sets the timer that calls [aiPropose] exactly when it is a
    proposal or a decision answered with a state that moved to an even
    round of a game in progress. *)
Lemma timer_set_iff (s : AppState) (ev : event) :
  SetTimeout CallAiPropose 1000 ∈ effects_of (step s ev) ↔
    ∃ gs data,
      truthy_str (sessionId s) = true
      ∧ gameState s = Some gs
      ∧ (ev = EvMakeProposal (FetchOk data)
         ∨ ∃ accept, ev = EvMakeDecision accept (FetchOk data))
      ∧ (current_round gs < current_round data)%Z
      ∧ game_over data = false
      ∧ Z.even (current_round data) = true.
Proof.
  split.
  - intros Hin.
    destruct ev;
      try (exfalso; revert Hin; apply no_timer_in_fetches,
             other_handlers_set_no_timer; intros; discriminate).
    + simpl in Hin. rewrite makeProposal_effects in Hin.
      destruct (truthy_str (sessionId s)) eqn:Hsid; simpl in Hin; [|absurd_elem Hin].
      destruct (gameState s) as [gs|] eqn:Hgs; [|absurd_elem Hin].
      destruct resp as [data|e]; [|absurd_elem Hin].
      destruct (roundMovedToAi data gs) eqn:Hmoved; [|absurd_elem Hin].
      apply roundMovedToAi_spec in Hmoved.
      exists gs, data. tauto.
    + simpl in Hin. rewrite makeDecision_effects in Hin.
      destruct (truthy_str (sessionId s)) eqn:Hsid; simpl in Hin; [|absurd_elem Hin].
      destruct resp as [data|e]; [|absurd_elem Hin].
      destruct (gameState s) as [gs|] eqn:Hgs; [|absurd_elem Hin].
      destruct (roundMovedToAi data gs) eqn:Hmoved; [|absurd_elem Hin].
      apply roundMovedToAi_spec in Hmoved.
      exists gs, data. repeat split; try tauto. right. by exists accept.
  - intros (gs & data & Hsid & Hgs & Hev & Hmoved).
    apply roundMovedToAi_spec in Hmoved.
    destruct Hev as [->|[accept ->]]; simpl.
    + rewrite makeProposal_effects, Hsid, Hgs. simpl. rewrite Hmoved. apply list_elem_of_In; simpl; auto.
    + rewrite makeDecision_effects, Hsid, Hgs. simpl. rewrite Hmoved. apply list_elem_of_In; simpl; auto.
Qed.

(** C4: an event sets the timer that calls [aiPropose] exactly when it is
    a proposal or a decision answered by the server with a state whose
    round is greater than the round the handler saw, whose game is not
    over and whose round is even; the timer is never set for an answer in
    an odd round or for a game that is over. *)
Theorem aiPropose_scheduled_iff (s : AppState) (ev : event) :
  (SetTimeout CallAiPropose 1000 ∈ effects_of (step s ev) ↔
     ∃ gs data,
       truthy_str (sessionId s) = true
       ∧ gameState s = Some gs
       ∧ (ev = EvMakeProposal (FetchOk data)
          ∨ ∃ accept, ev = EvMakeDecision accept (FetchOk data))
       ∧ (current_round gs < current_round data)%Z
       ∧ game_over data = false
       ∧ Z.even (current_round data) = true)
  ∧ ∀ data,
      ev = EvMakeProposal (FetchOk data)
      ∨ (∃ accept, ev = EvMakeDecision accept (FetchOk data)) →
      Z.odd (current_round data) = true ∨ game_over data = true →
      SetTimeout CallAiPropose 1000 ∉ effects_of (step s ev).
Proof.
  split; [apply timer_set_iff|].
  intros data Hev Hbad (gs & data' & _ & _ & Hev' & _ & Hover & Heven)%timer_set_iff.
  assert (data' = data) as ->.
  { destruct Hev as [->|[a ->]], Hev' as [?|[a' ?]]; congruence. }
  rewrite <- Z.negb_odd in Heven.
  destruct Hbad as [Hodd|Hover']; [by rewrite Hodd in Heven | congruence].
Qed.

(** C4 on a decision made in round 2 and answered with round 3: no timer. *)
Lemma aiPropose_scheduled_iff_witness :
  SetTimeout CallAiPropose 1000
    ∉ effects_of (step (session_in_round 2)
                       (EvMakeDecision true (FetchOk (game_in_round 3 false (Some []))))).
Proof.
  apply (proj2 (aiPropose_scheduled_iff _ _) (game_in_round 3 false (Some []))).
  - right. by exists true.
  - left. reflexivity.
Defined.

(** ** Trimming *)

Lemma trimStart_head (s : string) (c : ascii) (t : string) :
  trimStart s = String c t → is_white_space c = false.
Proof.
  induction s as [|d s IH]; simpl; [discriminate|].
  destruct (is_white_space d) eqn:Hd; [done|].
  intros [= <- _]. done.
Qed.

Lemma trimEnd_cons (c : ascii) (t : string) :
  is_white_space c = false → trimEnd (String c t) = String c (trimEnd t).
Proof.
  intros Hc. simpl. rewrite Hc. by destruct (trimEnd t).
Qed.

Lemma trimEnd_idempotent (s : string) : trimEnd (trimEnd s) = trimEnd s.
Proof.
  induction s as [|c s IH]; [done|]. simpl.
  destruct (trimEnd s) as [|d t] eqn:Ht.
  - destruct (is_white_space c) eqn:Hc; [done|]. simpl. by rewrite Hc.
  - change (trimEnd (String c (String d t))) with
      (match trimEnd (String d t) with
       | EmptyString =>
           if is_white_space c then EmptyString else String c EmptyString
       | u => String c u
       end).
    by rewrite IH.
Qed.

Lemma trim_idempotent (s : string) : trim (trim s) = trim s.
Proof.
  unfold trim. destruct (trimStart s) as [|c t] eqn:Hs; [done|].
  pose proof (trimStart_head _ _ _ Hs) as Hc.
  rewrite (trimEnd_cons c t Hc). simpl trimStart. rewrite Hc.
  by rewrite <- (trimEnd_cons c t Hc), trimEnd_idempotent.
Qed.

Example trim_name : trim "  Ann Lee  " = "Ann Lee" ∧ trim "   " = "".
Proof. done. Qed.

(** ** Submitting the player's name *)

(** C5: when the name trims to the empty string, [submitPlayerName]
    returns the state as it is and issues nothing; otherwise the name of
    every PATCH request it issues trims to a non-empty string. This holds
    of both revisions of the handler. *)
Theorem submitPlayerName_needs_name (s : AppState) (resp : fetch_result GameState) :
  (trim (playerName s) = "" →
     submitPlayerName s resp = (s, [])
     ∧ Legacy.submitPlayerName s resp = (s, []))
  ∧ (trim (playerName s) ≠ "" →
     (∃ name, Fetch (ReqPatchGame (sessionId s) name) ∈ (submitPlayerName s resp).2)
     ∧ (∃ name, Fetch (ReqPatchGame (sessionId s) name)
                  ∈ (Legacy.submitPlayerName s resp).2)
     ∧ ∀ id name,
         Fetch (ReqPatchGame id name) ∈ (submitPlayerName s resp).2
         ∨ Fetch (ReqPatchGame id name) ∈ (Legacy.submitPlayerName s resp).2 →
         trim name ≠ "")
  ∧ (∀ key value,
       LocalStorageSet key value ∈ (submitPlayerName s resp).2
       ∨ LocalStorageSet key value ∈ (Legacy.submitPlayerName s resp).2 →
       trim value ≠ "").
Proof.
  unfold submitPlayerName, Legacy.submitPlayerName.
  destruct (String.eqb_spec (trim (playerName s)) "") as [Hempty|Hname].
  - split; [done|]. split; [done|].
    intros key value [Hin|Hin]; simpl in Hin; by apply elem_of_nil in Hin.
  - split; [done|]. simpl. split.
    + intros _. split; [|split].
      * eexists. apply list_elem_of_In. simpl. eauto.
      * eexists. apply list_elem_of_In. simpl. eauto.
      * intros id name [Hin|Hin];
          rewrite !elem_of_cons, elem_of_nil in Hin;
          destruct Hin as [?|[?|[]]]; simplify_eq; [|done].
        by rewrite trim_idempotent.
    + intros key value [Hin|Hin];
        rewrite !elem_of_cons, elem_of_nil in Hin;
        destruct Hin as [?|[?|[]]]; simplify_eq; [|done].
      by rewrite trim_idempotent.
Qed.

(** C5 on a name made of two spaces: nothing is issued. *)
Lemma submitPlayerName_needs_name_witness :
  submitPlayerName (setPlayerName "  " initialState) (FetchThrow "offline")
  = (setPlayerName "  " initialState, []).
Proof.
  apply (proj1 (submitPlayerName_needs_name (setPlayerName "  " initialState)
                  (FetchThrow "offline"))).
  reflexivity.
Defined.

(** ** The name dialog *)

Lemma nameDialogDue_spec (s : AppState) :
  nameDialogDue s = true ↔
    (∃ gs, gameState s = Some gs
           ∧ game_over gs = true
           ∧ isWinner (Some gs) = true
           ∧ truthy_str (player_name gs) = false)
    ∧ showNameDialog s = false.
Proof.
  unfold nameDialogDue. rewrite !andb_true_iff, !negb_true_iff.
  destruct (gameState s) as [gs|]; simpl.
  - split.
    + intros [[[? ?] ?] ?]. split; [|done]. by exists gs.
    + intros [(gs' & [= <-] & ? & ? & ?) ?]. done.
  - split; [intros [[[? _] _] _]; done|].
    by intros [(gs' & ? & _) _].
Qed.

(** C6: the effect opens the name dialog exactly when the game is over,
    [isWinner] holds of the state, the state has no player name and the
    dialog is not shown; in every other case it leaves the state as it
    is, so it opens no dialog for a game in progress or a named session. *)
Theorem nameDialog_opened_iff (s : AppState) :
  (showNameDialog s = false ∧ showNameDialog (nameDialogEffect s) = true ↔
     (∃ gs, gameState s = Some gs
            ∧ game_over gs = true
            ∧ isWinner (Some gs) = true
            ∧ truthy_str (player_name gs) = false)
     ∧ showNameDialog s = false)
  ∧ (∀ gs, gameState s = Some gs →
           game_over gs = false ∨ truthy_str (player_name gs) = true →
           nameDialogEffect s = s)
  ∧ (gameState s = None → nameDialogEffect s = s).
Proof.
  unfold nameDialogEffect. split; [|split].
  - rewrite <- nameDialogDue_spec.
    destruct (nameDialogDue s) eqn:Hdue.
    + apply nameDialogDue_spec in Hdue as [_ Hshown]. by rewrite Hshown.
    + split; [|done]. intros [Hoff Hon]. congruence.
  - intros gs Hgs Hbad.
    destruct (nameDialogDue s) eqn:Hdue; [|done].
    apply nameDialogDue_spec in Hdue as [(gs' & Hgs' & Hover & _ & Hname) _].
    simplify_eq. destruct Hbad; congruence.
  - intros Hgs.
    destruct (nameDialogDue s) eqn:Hdue; [|done].
    apply nameDialogDue_spec in Hdue as [(gs' & Hgs' & _) _]. congruence.
Qed.

(** C6 on a game in progress with a lead of 20 points: no dialog. *)
Lemma nameDialog_opened_iff_witness :
  let gs := {| current_round := 4; human_score := 25; ai_score := 5;
               game_over := false; winner := None; player_name := None;
               messages := Some [] |} in
  nameDialogEffect (setGameState (Some gs) initialState)
  = setGameState (Some gs) initialState.
Proof.
  intros gs.
  apply (proj1 (proj2 (nameDialog_opened_iff (setGameState (Some gs) initialState))) gs).
  - reflexivity.
  - left. reflexivity.
Defined.

(** ** A failed proposal *)

Lemma with_messages_same (gs : GameState) (msgs : list Message) :
  messages gs = Some msgs → with_messages msgs gs = gs.
Proof. destruct gs; simpl; by intros ->. Qed.

Lemma fresh_oid_fresh (msgs : list Message) (m : Message) :
  m ∈ msgs → oid m ≠ fresh_oid msgs.
Proof.
  intros Hin Heq.
  assert (oid m ≤ max_list (oid <$> msgs)).
  { apply max_list_elem_of_le, list_elem_of_fmap. by exists m. }
  unfold fresh_oid in Heq. lia.
Qed.

Lemma filter_keeps_others (x : nat) (msgs : list Message) :
  (∀ m, m ∈ msgs → oid m ≠ x) →
  filter (λ m, oid m ≠ x) msgs = msgs.
Proof.
  induction msgs as [|m l IH]; intros Hall; [done|].
  rewrite filter_cons_True by (apply Hall; by left).
  rewrite IH; [done|]. intros m' Hm'. apply Hall. by right.
Qed.

(** Removing the temporary message undoes appending it, the identity of
    the temporary message being new. *)
Lemma removeMessage_appendMessage (temp : Message) (gs : GameState) (msgs : list Message) :
  messages gs = Some msgs →
  oid temp = fresh_oid msgs →
  removeMessage temp (appendMessage temp (Some gs)) = Some gs.
Proof.
  intros Hmsgs Hoid. unfold appendMessage, removeMessage. simpl.
  rewrite Hmsgs. simpl. f_equal. unfold with_messages. simpl.
  rewrite filter_app, filter_cons_False, filter_nil, app_nil_r by (by intros ?).
  rewrite filter_keeps_others.
  - by apply with_messages_same.
  - intros m Hm. rewrite Hoid. by apply fresh_oid_fresh.
Qed.

(** Only the object created by the handler is removed: a message with the
    same fields and another identity stays. *)
Example removeMessage_by_identity :
  let twin := message_of "human" "proposer" (Some 5%Z) in
  let temp := {| oid := 1; player := "human"; role := "proposer";
                 proposal := Some 5%Z; decision := None; message := "";
                 round_num := 1 |} in
  removeMessage temp (Some (game_in_round 1 false (Some [twin; temp])))
  = Some (game_in_round 1 false (Some [twin])).
Proof. reflexivity. Qed.

(** C9: when the request of [makeProposal] throws, the handler ends in the
    state it started from with the error text set and [loading] false:
    the temporary message is gone and [gameState], with its list of
    messages, is the one before the call. *)
Theorem makeProposal_failure_restores
    (s : AppState) (gs : GameState) (msgs : list Message) (e : string) :
  truthy_str (sessionId s) = true →
  gameState s = Some gs →
  messages gs = Some msgs →
  ∃ s',
    makeProposal s (FetchThrow e)
    = Next s' [Fetch (ReqPropose (sessionId s) (proposalPoints s) (proposalMessage s))]
    ∧ gameState s' = gameState s
    ∧ gameState s' ≫= messages = Some msgs
    ∧ s' = setLoading false (setError ("Failed to make proposal: " +:+ e) s).
Proof.
  intros Hsid Hgs Hmsgs. unfold makeProposal. rewrite Hsid, Hgs. simpl.
  set (temp := {| oid := fresh_oid (default [] (messages gs)) |}).
  assert (Hoid : oid temp = fresh_oid msgs) by (subst temp; simpl; by rewrite Hmsgs).
  pose proof (removeMessage_appendMessage temp gs msgs Hmsgs Hoid) as Hundo.
  unfold updateGameState. simpl. rewrite Hgs.
  destruct (appendMessage temp (Some gs)) as [g|] eqn:Happ;
    [|by unfold appendMessage in Happ; simpl in Happ; rewrite Hmsgs in Happ].
  cbn -[removeMessage]. rewrite Hundo. simpl.
  eexists. split; [reflexivity|]. simpl. rewrite Hmsgs.
  repeat split. destruct s; simpl in *. by subst.
Qed.

(** C9 on a session in round 1 with an empty list of messages. *)
Lemma makeProposal_failure_restores_witness :
  ∃ s',
    makeProposal (session_in_round 1) (FetchThrow "Failed to fetch")
    = Next s' [Fetch (ReqPropose (Some "s1") 5 "")]
    ∧ gameState s' = gameState (session_in_round 1)
    ∧ gameState s' ≫= messages = Some []
    ∧ s' = setLoading false
             (setError ("Failed to make proposal: " +:+ "Failed to fetch")
                (session_in_round 1)).
Proof.
  apply (makeProposal_failure_restores (session_in_round 1)
           (game_in_round 1 false (Some [])) [] "Failed to fetch");
    reflexivity.
Defined.

(** ** The cap on messages *)

Lemma substring_0_length (n : nat) (s : string) :
  String.length (substring 0 n s) ≤ n.
Proof.
  revert s. induction n as [|n IH]; intros [|c s]; simpl; try lia.
  specialize (IH s). lia.
Qed.

Lemma slice0_length (n : nat) (value : string) :
  String.length (slice0 n value) ≤ n.
Proof. apply substring_0_length. Qed.

Lemma step_capped (s s' : AppState) (ev : event) (effs : list effect) :
  capped s → step s ev = Next s' effs → capped s'.
Proof.
  intros [Hp Hd] Hstep. unfold capped.
  destruct ev; simpl in Hstep; unfold_handlers;
    repeat case_match; simplify_option_eq; simpl;
    try (split; (assumption || apply slice0_length || (simpl; lia))).
Qed.

(** The message of a proposal or a decision sent to the server is the
    message field of the state. *)
Lemma request_message (s : AppState) (ev : event) (sid : option string) (m : string) :
  (∀ pts, Fetch (ReqPropose sid pts m) ∈ effects_of (step s ev) → m = proposalMessage s)
  ∧ (∀ acc, Fetch (ReqDecide sid acc m) ∈ effects_of (step s ev) → m = decisionMessage s).
Proof.
  split; intros x Hin.
  - destruct ev; simpl in Hin;
      try rewrite makeProposal_effects in Hin;
      try rewrite makeDecision_effects in Hin;
      unfold_handlers; repeat case_match; simplify_eq; simpl in Hin;
      rewrite ?elem_of_cons, ?elem_of_nil in Hin;
      intuition (try discriminate); by simplify_eq.
  - destruct ev; simpl in Hin;
      try rewrite makeProposal_effects in Hin;
      try rewrite makeDecision_effects in Hin;
      unfold_handlers; repeat case_match; simplify_eq; simpl in Hin;
      rewrite ?elem_of_cons, ?elem_of_nil in Hin;
      intuition (try discriminate); by simplify_eq.
Qed.

Lemma reachable_capped (s : AppState) : reachable s → capped s.
Proof.
  induction 1 as [|s ev s' effs _ IH _ Hstep].
  - split; simpl; lia.
  - by eapply step_capped.
Qed.

Example slice0_short_and_long :
  slice0 3 "ab" = "ab" ∧ slice0 3 "abcdef" = "abc".
Proof. done. Qed.

(** C7: each change handler stores the first 256 characters of the value;
    after any sequence of events [proposalMessage] and [decisionMessage]
    have at most 256 characters, and so has the message of every proposal
    or decision sent to the server. *)
Theorem message_cap (s : AppState) :
  reachable s →
  (∀ value, proposalMessage (handleProposalMessageChange s value) = slice0 256 value
            ∧ decisionMessage (handleDecisionMessageChange s value) = slice0 256 value)
  ∧ String.length (proposalMessage s) ≤ 256
  ∧ String.length (decisionMessage s) ≤ 256
  ∧ ∀ ev sid m,
      (∀ pts, Fetch (ReqPropose sid pts m) ∈ effects_of (step s ev) →
              String.length m ≤ 256)
      ∧ (∀ acc, Fetch (ReqDecide sid acc m) ∈ effects_of (step s ev) →
                String.length m ≤ 256).
Proof.
  intros [Hp Hd]%reachable_capped.
  split; [done|]. split; [done|]. split; [done|].
  intros ev sid m.
  destruct (request_message s ev sid m) as [Hpm Hdm].
  split; intros x Hin.
  - by rewrite (Hpm x Hin).
  - by rewrite (Hdm x Hin).
Qed.

(** C7 after a message of 300 characters was typed. *)
Lemma message_cap_witness :
  String.length
    (proposalMessage
       (handleProposalMessageChange initialState
          (string_of_list_ascii (repeat "a"%char 300)))) ≤ 256.
Proof.
  refine (proj1 (proj2 (message_cap
            (handleProposalMessageChange initialState
               (string_of_list_ascii (repeat "a"%char 300))) _))).
  eapply (reachable_step _ initialState
            (EvProposalMessageChange (string_of_list_ascii (repeat "a"%char 300)))).
  - apply reachable_init.
  - exact I.
  - reflexivity.
Defined.

(** ** The leaderboard page *)

Lemma step_paged (s s' : AppState) (ev : event) (effs : list effect) :
  paged s → leaderboard_as_specified ev → step s ev = Next s' effs → paged s'.
Proof.
  intros [Hp Ht] Hev Hstep. unfold paged.
  destruct ev; simpl in Hstep, Hev; unfold_handlers;
    repeat case_match; simplify_option_eq; simpl; try (split; (assumption || lia)).
Qed.

Lemma reachable_paged (s : AppState) :
  reachable_by leaderboard_as_specified s → paged s.
Proof.
  induction 1 as [|s ev s' effs _ IH Hev Hstep].
  - split; simpl; lia.
  - by eapply step_paged.
Qed.

(** A leaderboard query asks for the page held by the state, ten entries
    a page. *)
Lemma leaderboard_request (s : AppState) (ev : event) (sort : string) (page size : Z) :
  Fetch (ReqLeaderboard sort page size) ∈ effects_of (step s ev) →
  sort = leaderboardSort s ∧ page = leaderboardPage s ∧ size = 10%Z.
Proof.
  intros Hin.
  destruct ev; simpl in Hin;
    try rewrite makeProposal_effects in Hin;
    try rewrite makeDecision_effects in Hin;
    unfold_handlers; repeat case_match; simplify_eq; simpl in Hin;
    rewrite ?elem_of_cons, ?elem_of_nil in Hin;
    intuition (try discriminate); by simplify_eq.
Qed.

(** Without the page count of the spec the page can leave the bounds: a
    page count of 0 followed by the next-page action gives page 0. *)
Example page_zero_after_empty_count :
  ∃ s1 effs1 s2 effs2,
    step initialState
      (EvLeaderboardEffect (FetchOk {| entries := []; total_pages := 0 |}))
    = Next s1 effs1
    ∧ step s1 EvNextPage = Next s2 effs2
    ∧ leaderboardPage s2 = 0%Z.
Proof. by repeat eexists. Qed.

(** C8: the page starts at 1; the previous-page action sets it to
    [max(1, page - 1)], the next-page action to [min(totalPages, page + 1)],
    a change of the sort order to 1; and, the server giving page counts of
    at least 1, after any sequence of events the page is at least 1, it
    stays so under the three actions, and every leaderboard query asks for
    a page of at least 1. *)
Theorem leaderboard_page_bounds (s : AppState) :
  reachable_by leaderboard_as_specified s →
  leaderboardPage initialState = 1%Z
  ∧ leaderboardPage (onPreviousPage s) = Z.max 1 (leaderboardPage s - 1)
  ∧ leaderboardPage (onNextPage s)
    = Z.min (leaderboardTotalPages s) (leaderboardPage s + 1)
  ∧ (∀ sort, leaderboardPage (onSortClick sort s) = 1%Z)
  ∧ (1 ≤ leaderboardPage s)%Z
  ∧ (1 ≤ leaderboardPage (onPreviousPage s))%Z
  ∧ (1 ≤ leaderboardPage (onNextPage s))%Z
  ∧ ∀ ev sort page size,
      Fetch (ReqLeaderboard sort page size) ∈ effects_of (step s ev) →
      (1 ≤ page)%Z.
Proof.
  intros [Hp Ht]%reachable_paged.
  repeat split; try done; simpl; try lia.
  intros ev sort page size (_ & -> & _)%leaderboard_request. done.
Qed.

(** C8 after the next-page action on the first and only page. *)
Lemma leaderboard_page_bounds_witness :
  (1 ≤ leaderboardPage (onNextPage initialState))%Z.
Proof.
  refine (proj1 (proj2 (proj2 (proj2 (proj2
            (leaderboard_page_bounds (onNextPage initialState) _)))))).
  eapply (reachable_step _ initialState EvNextPage).
  - apply reachable_init.
  - exact I.
  - reflexivity.
Defined.

(** * Further properties of the component *)

(** ** The panels of a game *)

Lemma phase_in_progress (gs : GameState) :
  game_over gs = false →
  getCurrentPhase (Some gs) ≠ start ∧ getCurrentPhase (Some gs) ≠ phase_game_over.
Proof.
  intros Hover.
  destruct (messages_cases gs) as [Hnone|(msgs & m & Hmsgs & Hlast)].
  - by rewrite getCurrentPhase_no_messages.
  - rewrite (getCurrentPhase_last gs msgs m) by done.
    by repeat case_match.
Qed.

(** X1: a game in progress shows exactly one of the three panels (to
    propose, to decide, to wait), a game that is over shows none. *)
Theorem gameActions_one_panel (gs : GameState) :
  (game_over gs = true → gameActions gs = [])
  ∧ (game_over gs = false →
     ∃ panel, gameActions gs = [panel]
       ∧ (panel = PanelPropose ↔ getCurrentPhase (Some gs) = human_propose)
       ∧ (panel = PanelDecide (decidePanelProposal gs)
          ↔ getCurrentPhase (Some gs) = human_decide)).
Proof.
  unfold gameActions. split; intros Hover; rewrite Hover; [done|].
  destruct (phase_in_progress gs Hover) as [Hs Ho].
  destruct (getCurrentPhase (Some gs)); try done;
    eexists; (split; [reflexivity|]); by split.
Qed.

Lemma gameActions_one_panel_witness :
  ∃ panel,
    gameActions (game_in_round 1 false (Some [])) = [panel]
    ∧ (panel = PanelPropose
       ↔ getCurrentPhase (Some (game_in_round 1 false (Some []))) = human_propose)
    ∧ (panel = PanelDecide (decidePanelProposal (game_in_round 1 false (Some [])))
       ↔ getCurrentPhase (Some (game_in_round 1 false (Some []))) = human_decide).
Proof.
  apply (proj2 (gameActions_one_panel (game_in_round 1 false (Some [])))).
  reflexivity.
Defined.

(** X2: in the phase [human_decide] the panel always has a proposal to
    show, the one of the last message, which is a proposer message of
    'ai': the branch that renders nothing is never taken. *)
Theorem decide_panel_has_proposal (gs : GameState) :
  getCurrentPhase (Some gs) = human_decide →
  ∃ msgs m,
    messages gs = Some msgs
    ∧ lastMessageOf msgs = Some m
    ∧ player m = "ai"
    ∧ role m = "proposer"
    ∧ decidePanelProposal gs =
        Some ([Strong "AI proposes:"; Txt " "] ++ interpolate (proposal m)
              ++ [Txt " points for you, "; Num (10 - to_number (proposal m));
                  Txt " points for AI"]).
Proof.
  intros Hphase.
  destruct (game_over gs) eqn:Hover.
  { unfold getCurrentPhase in Hphase. by rewrite Hover in Hphase. }
  destruct (messages_cases gs) as [Hnone|(msgs & m & Hmsgs & Hlast)].
  { by rewrite getCurrentPhase_no_messages in Hphase. }
  rewrite (getCurrentPhase_last gs msgs m) in Hphase by done.
  exists msgs, m.
  destruct (Z.rem (current_round gs) 2 =? 1)%Z;
    destruct (String.eqb (role m) "decider"); try done.
  destruct (String.eqb_spec (player m) "ai") as [Hp|]; [|done].
  destruct (String.eqb_spec (role m) "proposer") as [Hr|]; [|done].
  repeat split; try done.
  unfold decidePanelProposal. rewrite Hmsgs.
  destruct msgs; [done|]. by rewrite Hlast.
Qed.

Lemma decide_panel_has_proposal_witness :
  ∃ msgs m,
    messages (game_in_round 2 false (Some [message_of "ai" "proposer" (Some 4%Z)]))
    = Some msgs
    ∧ lastMessageOf msgs = Some m
    ∧ player m = "ai"
    ∧ role m = "proposer"
    ∧ decidePanelProposal
        (game_in_round 2 false (Some [message_of "ai" "proposer" (Some 4%Z)])) =
        Some ([Strong "AI proposes:"; Txt " "] ++ interpolate (proposal m)
              ++ [Txt " points for you, "; Num (10 - to_number (proposal m));
                  Txt " points for AI"]).
Proof.
  apply (decide_panel_has_proposal
           (game_in_round 2 false (Some [message_of "ai" "proposer" (Some 4%Z)]))).
  reflexivity.
Defined.

(** ** The optimistic message *)

Lemma lastMessageOf_snoc (msgs : list Message) (m : Message) :
  lastMessageOf (msgs ++ [m]) = Some m.
Proof.
  unfold lastMessageOf. rewrite length_app. simpl.
  replace (length msgs + 1 - 1)%nat with (length msgs) by lia.
  by rewrite lookup_app_r, Nat.sub_diag by lia.
Qed.

(** X3: once the human's proposal is appended to the messages of a game
    in progress, the phase is [waiting_ai_decision] in an odd round and
    [waiting] in an even one: the panel to propose is gone before the
    server answers. *)
Theorem optimistic_message_phase (temp : Message) (gs : GameState) (msgs : list Message) :
  (0 ≤ current_round gs)%Z →
  game_over gs = false →
  messages gs = Some msgs →
  player temp = "human" →
  role temp = "proposer" →
  ∃ g, appendMessage temp (Some gs) = Some g
       ∧ messages g = Some (msgs ++ [temp])
       ∧ getCurrentPhase (Some g) =
           if Z.odd (current_round gs) then waiting_ai_decision else waiting.
Proof.
  intros Hr Hover Hmsgs Hplayer Hrole.
  exists (with_messages (msgs ++ [temp]) gs). split; [|split; [reflexivity|]].
  - unfold appendMessage. simpl. by rewrite Hmsgs.
  - rewrite (getCurrentPhase_last _ (msgs ++ [temp]) temp);
      [|done|done|apply lastMessageOf_snoc].
    simpl. rewrite rem2_is_1, Hrole, Hplayer by done. done.
Qed.

Lemma optimistic_message_phase_witness :
  ∃ g, appendMessage (message_of "human" "proposer" (Some 6%Z))
         (Some (game_in_round 3 false (Some [])))
       = Some g
       ∧ messages g = Some ([] ++ [message_of "human" "proposer" (Some 6%Z)])
       ∧ getCurrentPhase (Some g) =
           if Z.odd (current_round (game_in_round 3 false (Some [])))
           then waiting_ai_decision else waiting.
Proof.
  apply (optimistic_message_phase (message_of "human" "proposer" (Some 6%Z))
           (game_in_round 3 false (Some [])) []).
  - vm_compute. discriminate.
  - reflexivity.
  - reflexivity.
  - reflexivity.
  - reflexivity.
Defined.

(** ** The game history *)

Lemma renderHistory_lookup (gs : GameState) (msgs : list Message) (idx : nat) (msg : Message) :
  messages gs = Some msgs →
  msgs !! idx = Some msg →
  ∃ items, renderHistory gs = Some items
           ∧ length items = length msgs
           ∧ items !! idx = Some (historyItemOf msgs idx msg).
Proof.
  intros Hmsgs Hidx. unfold renderHistory. rewrite Hmsgs.
  destruct msgs as [|m0 l] eqn:Hl; [done|]. rewrite <- Hl in *.
  eexists. split; [reflexivity|]. split; [apply length_imap|].
  by rewrite list_lookup_imap, Hidx.
Qed.

(** X4: in a list of messages ordered by round, the history puts the
    heading of a round on a message exactly when no earlier message has
    the same round: each round is headed once, at its first message. *)
Theorem round_heading_at_first_message
    (gs : GameState) (msgs : list Message) (idx : nat) (msg : Message) :
  messages gs = Some msgs →
  (∀ i j mi mj, (i ≤ j)%nat → msgs !! i = Some mi → msgs !! j = Some mj →
                (round_num mi ≤ round_num mj)%Z) →
  msgs !! idx = Some msg →
  ∃ items item,
    renderHistory gs = Some items
    ∧ items !! idx = Some item
    ∧ (item_header item = Some (round_num msg)
       ↔ ∀ j mj, (j < idx)%nat → msgs !! j = Some mj → round_num mj ≠ round_num msg)
    ∧ (item_header item = None
       ↔ ∃ j mj, (j < idx)%nat ∧ msgs !! j = Some mj ∧ round_num mj = round_num msg).
Proof.
  intros Hmsgs Hsorted Hidx.
  destruct (renderHistory_lookup gs msgs idx msg Hmsgs Hidx) as (items & Hr & _ & Hitem).
  exists items, (historyItemOf msgs idx msg). split; [done|]. split; [done|].
  simpl. unfold roundHeader.
  destruct idx as [|k]; simpl.
  { split; split; try done.
    - intros _ j mj Hj. lia.
    - intros (j & mj & Hj & _). lia. }
  rewrite Nat.sub_0_r.
  assert (is_Some (msgs !! k)) as [prev Hprev].
  { apply lookup_lt_is_Some. apply lookup_lt_Some in Hidx. lia. }
  rewrite Hprev. simpl.
  pose proof (Hsorted k (S k) prev msg ltac:(lia) Hprev Hidx) as Hle.
  destruct (Z.eqb_spec (round_num msg) (round_num prev)) as [Heq|Hne]; simpl.
  - split; split; try done.
    + intros Hall. destruct (Hall k prev ltac:(lia) Hprev). done.
    + intros _. exists k, prev. repeat split; [lia|done|done].
  - split; split; try done.
    + intros _ j mj Hj Hmj.
      pose proof (Hsorted j k mj prev ltac:(lia) Hmj Hprev). lia.
    + intros (j & mj & Hj & Hmj & Heq).
      pose proof (Hsorted j k mj prev ltac:(lia) Hmj Hprev). lia.
Qed.

(** A history for examples: a proposal and a decision of round 1, then a
    proposal of round 2. *)
Definition three_messages : list Message :=
  [ {| oid := 0; player := "human"; role := "proposer"; proposal := Some 7%Z;
       decision := None; message := "fair?"; round_num := 1 |};
    {| oid := 1; player := "ai"; role := "decider"; proposal := None;
       decision := Some true; message := ""; round_num := 1 |};
    {| oid := 2; player := "ai"; role := "proposer"; proposal := Some 3%Z;
       decision := None; message := ""; round_num := 2 |} ].

Lemma round_heading_at_first_message_witness :
  ∃ items item,
    renderHistory (game_in_round 2 false (Some three_messages)) = Some items
    ∧ items !! 1%nat = Some item
    ∧ item_header item = None.
Proof.
  destruct (round_heading_at_first_message
              (game_in_round 2 false (Some three_messages)) three_messages 1
              {| oid := 1; player := "ai"; role := "decider"; proposal := None;
                 decision := Some true; message := ""; round_num := 1 |})
    as (items & item & Hr & Hi & _ & Hnone).
  - reflexivity.
  - intros i j mi mj Hij Hi Hj.
    destruct i as [|[|[|i]]]; destruct j as [|[|[|j]]];
      simpl in Hi, Hj; simplify_eq; simpl; lia.
  - reflexivity.
  - exists items, item. split; [exact Hr|]. split; [exact Hi|].
    apply Hnone. exists 0%nat. eexists.
    split; [lia|]. split; reflexivity.
Defined.

(** ** The leaderboard table *)

Lemma tableRow_length (sortBy : string) (index : nat) (entry : LeaderboardEntry) :
  length (tableRow sortBy index entry) = length (tableHeader sortBy).
Proof.
  unfold tableRow, tableHeader.
  destruct (String.eqb sortBy "difference"), (String.eqb sortBy "score"); reflexivity.
Qed.

(** X5: the leaderboard table has one row for each entry, every row has a
    cell under each heading, the first cell of row [i] (from 0) is the
    rank [i + 1], and for the sort orders 'score' and 'difference' there
    are six columns, one of them headed "Diff". *)
Theorem leaderboard_table_aligned (entries : list LeaderboardEntry) (sortBy : string) :
  length (LeaderboardTable entries sortBy).2 = length entries
  ∧ (∀ i row, (LeaderboardTable entries sortBy).2 !! i = Some row →
       length row = length (LeaderboardTable entries sortBy).1
       ∧ row !! 0%nat = Some (CellNum (Z.of_nat i + 1)))
  ∧ (sortBy = "score" ∨ sortBy = "difference" →
       length (LeaderboardTable entries sortBy).1 = 6%nat
       ∧ length (filter (λ h, h = "Diff") (LeaderboardTable entries sortBy).1) = 1%nat).
Proof.
  unfold LeaderboardTable. simpl. split; [apply length_imap|]. split.
  - intros i row. rewrite list_lookup_imap.
    destruct (entries !! i) as [entry|]; simpl; [|done].
    intros [= <-]. split; [apply tableRow_length|done].
  - by intros [-> | ->].
Qed.

Lemma leaderboard_table_aligned_witness :
  length (LeaderboardTable [] "difference").1 = 6%nat
  ∧ length (filter (λ h, h = "Diff") (LeaderboardTable [] "difference").1) = 1%nat.
Proof.
  apply (proj2 (proj2 (leaderboard_table_aligned [] "difference"))).
  right. reflexivity.
Defined.

(** X6: the preview of the welcome screen is shown only without a game
    and with a non-empty leaderboard, and has at most four rows, the
    first entries of the leaderboard in their order. *)
Theorem preview_at_most_four (s : AppState) (header : list string) (rows : list (list cell)) :
  previewTable s = Some (header, rows) →
  gameState s = None
  ∧ leaderboard s ≠ []
  ∧ (length rows ≤ 4)%nat
  ∧ length rows = Nat.min 4 (length (leaderboard s))
  ∧ ∀ i row, rows !! i = Some row →
      ∃ entry, leaderboard s !! i = Some entry
               ∧ row = tableRow (leaderboardSort s) i entry.
Proof.
  unfold previewTable, LeaderboardTable.
  destruct (gameState s); [done|].
  case_bool_decide as Hlen; [|done].
  intros [= <- <-]. split; [done|]. split.
  { intros Hnil. rewrite Hnil in Hlen. simpl in Hlen. lia. }
  rewrite length_imap, length_take. repeat split; [lia|].
  intros i row. rewrite list_lookup_imap.
  destruct (take 4 (leaderboard s) !! i) as [entry|] eqn:Hi; simpl; [|done].
  intros [= <-]. exists entry. split; [|done].
  apply lookup_take_Some in Hi. tauto.
Qed.

Lemma preview_at_most_four_witness :
  let entry n := {| entry_player_name := "p"; entry_human_score := n;
                    entry_ai_score := 0; created_at := "2025-01-01" |} in
  let s := setLeaderboard [entry 50%Z; entry 40%Z; entry 30%Z; entry 20%Z; entry 10%Z]
             initialState in
  ∃ header rows, previewTable s = Some (header, rows) ∧ (length rows ≤ 4)%nat.
Proof.
  intros entry s. eexists _, _. split; [reflexivity|].
  refine (proj1 (proj2 (proj2 (preview_at_most_four s _ _ _)))).
  reflexivity.
Defined.

(** ** The paging buttons *)

(** X7: a paging button is disabled exactly when its action would leave
    the page as it is: "previous" on page 1, "next" on the last page. *)
Theorem paging_disabled_iff_no_move (s : AppState) :
  (previousDisabled s = true ↔ leaderboardPage (onPreviousPage s) = leaderboardPage s)
  ∧ (nextDisabled s = true ↔ leaderboardPage (onNextPage s) = leaderboardPage s).
Proof.
  unfold previousDisabled, nextDisabled, onPreviousPage, onNextPage. simpl.
  rewrite !Z.eqb_eq. lia.
Qed.

(** ** The sort order *)

Lemma step_known_sort (s s' : AppState) (ev : event) (effs : list effect) :
  known_sort s → step s ev = Next s' effs → known_sort s'.
Proof.
  intros Hs Hstep. unfold known_sort in *.
  destruct ev; simpl in Hstep; unfold_handlers;
    repeat case_match; simplify_option_eq; simpl; auto.
Qed.

Lemma reachable_known_sort (s : AppState) : reachable s → known_sort s.
Proof.
  induction 1 as [|s ev s' effs _ IH _ Hstep].
  - by left.
  - by eapply step_known_sort.
Qed.

(** X8: after any sequence of events the sort order is 'score' or
    'difference'; hence the condition of the leaderboard effect always
    holds, the effect sends exactly one query, for that order, the page
    of the state and ten entries, and the table has its six columns. *)
Theorem leaderboard_query_always_sent (s : AppState) :
  reachable s →
  (leaderboardSort s = "score" ∨ leaderboardSort s = "difference")
  ∧ (∀ resp, (leaderboardEffect s resp).2
             = [Fetch (ReqLeaderboard (leaderboardSort s) (leaderboardPage s) 10)])
  ∧ length (LeaderboardTable (leaderboard s) (leaderboardSort s)).1 = 6%nat.
Proof.
  intros Hsort%reachable_known_sort. split; [done|]. split.
  - intros resp. unfold leaderboardEffect.
    replace (truthy_str (Some (leaderboardSort s))) with true
      by (by destruct Hsort as [-> | ->]).
    rewrite orb_true_r. simpl. apply fetchLeaderboard_effects.
  - by destruct Hsort as [-> | ->].
Qed.

Lemma leaderboard_query_always_sent_witness :
  (leaderboardEffect (onSortClick "difference" initialState) (FetchThrow "offline")).2
  = [Fetch (ReqLeaderboard "difference" 1 10)].
Proof.
  refine (proj1 (proj2 (leaderboard_query_always_sent
            (onSortClick "difference" initialState) _)) _).
  eapply (reachable_step _ initialState EvSortDifference).
  - apply reachable_init.
  - exact I.
  - reflexivity.
Defined.

(** ** Requests and the session *)

(** The session a request is about, for the requests that name one in
    their URL or body on behalf of a game in progress. *)
Definition session_of (r : request) : option (option string) :=
  match r with
  | ReqGetGame id => Some (Some id)
  | ReqPropose sid _ _ | ReqDecide sid _ _ | ReqAiPropose sid => Some sid
  | _ => None
  end.

(** X9: whatever the state and the event, a request to read a game, to
    propose, to decide or to let the counterpart propose carries a
    non-empty session id: without a session these handlers send nothing. *)
Theorem game_requests_carry_session (s : AppState) (ev : event) (r : request)
    (sid : option string) :
  Fetch r ∈ effects_of (step s ev) →
  session_of r = Some sid →
  truthy_str sid = true.
Proof.
  intros Hin Hsid.
  destruct ev; simpl in Hin;
    try rewrite makeProposal_effects in Hin;
    try rewrite makeDecision_effects in Hin;
    unfold_handlers; repeat case_match; simplify_eq; simpl in Hin;
    rewrite ?elem_of_cons, ?elem_of_nil in Hin;
    repeat (destruct Hin as [Hin|Hin]; [simplify_eq; simpl in Hsid; simplify_eq|]);
    try done;
    try (by destruct (sessionId s) as [?|]; simpl in *;
           try destruct (String.eqb _ _)).
  all: simpl; by match goal with H : String.eqb _ "" = false |- _ => rewrite H end.
Qed.

Lemma game_requests_carry_session_witness :
  truthy_str (Some "s1") = true.
Proof.
  apply (game_requests_carry_session (session_in_round 2)
           (EvAiPropose (FetchThrow "offline")) (ReqAiPropose (Some "s1"))).
  - apply list_elem_of_In. simpl. auto.
  - reflexivity.
Defined.

(** The request that saves the name has no such guard: with the dialog
    opened before any game, it is sent for the session [null]. *)
Example patch_without_session :
  (submitPlayerName (setPlayerName "Ann" initialState) (FetchThrow "offline")).2
  = [LocalStorageSet STORAGE_KEY "Ann"; Fetch (ReqPatchGame None "Ann")].
Proof. reflexivity. Qed.

(** X10: the name sent when a game is started is [null] when the name
    typed trims to nothing, and else the trimmed name, which is not empty
    and has no white space left to trim. *)
Theorem new_game_name_trimmed (s : AppState) (ev : event) (name : option string) :
  Fetch (ReqNewGame name) ∈ effects_of (step s ev) →
  match name with
  | None => trim (playerName s) = ""
  | Some n => n = trim (playerName s) ∧ n ≠ "" ∧ trim n = n
  end.
Proof.
  intros Hin.
  assert (Hname : name = trimmed_or_null (playerName s)).
  { destruct ev; simpl in Hin;
      try rewrite makeProposal_effects in Hin;
      try rewrite makeDecision_effects in Hin;
      unfold_handlers; repeat case_match; simplify_eq; simpl in Hin;
      rewrite ?elem_of_cons, ?elem_of_nil in Hin;
      intuition (try discriminate); by simplify_eq. }
  rewrite Hname. unfold trimmed_or_null.
  destruct (String.eqb_spec (trim (playerName s)) "") as [Hempty|Hfull]; [done|].
  split; [done|]. split; [done|]. apply trim_idempotent.
Qed.

Lemma new_game_name_trimmed_witness :
  "Ann" = trim (playerName (setPlayerName " Ann " initialState))
  ∧ "Ann" ≠ "" ∧ trim "Ann" = "Ann".
Proof.
  apply (new_game_name_trimmed (setPlayerName " Ann " initialState)
           (EvStartNewGame (FetchThrow "offline") (FetchThrow "offline"))
           (Some "Ann")).
  apply list_elem_of_In. simpl. auto.
Defined.

(** X11: [startNewGame] replaces the session id as soon as the first
    request is answered; it then reads the game of the answered id, or,
    when the answer has no [session_id] at all, of the session it started
    from, and replaces the game only when that id is not empty and the
    second request succeeds too; in every case it ends with [loading]
    false. *)
Theorem startNewGame_outcome
    (s : AppState) (resp : fetch_result NewGameData) (game : fetch_result GameState) :
  let s' := (startNewGame s resp game).1 in
  let read data := default (sessionId s) (session_id data) in
  sessionId s' = match resp with
                 | FetchOk data => default None (session_id data)
                 | FetchThrow _ => sessionId s
                 end
  ∧ gameState s' = match resp, game with
                   | FetchOk data, FetchOk g =>
                       if truthy_str (read data) then Some g else gameState s
                   | _, _ => gameState s
                   end
  ∧ error s' = match resp, game with
               | FetchThrow e, _ => "Failed to start new game: " +:+ e
               | FetchOk data, FetchThrow e =>
                   if truthy_str (read data)
                   then "Failed to fetch game state: " +:+ e else ""
               | FetchOk _, FetchOk _ => ""
               end
  ∧ loading s' = false
  ∧ ∀ id, Fetch (ReqGetGame id) ∈ (startNewGame s resp game).2 ↔
          ∃ data, resp = FetchOk data ∧ read data = Some id ∧ id ≠ "".
Proof.
  cbv zeta. unfold startNewGame, fetchGameState.
  destruct resp as [[sid]|e], game as [g|e']; simpl;
    try (destruct (default (sessionId s) sid) as [i|] eqn:Hread; simpl);
    try (destruct (String.eqb_spec i "") as [->|Hi]; simpl);
    (split; [done|]); (split; [done|]); (split; [done|]); (split; [done|]);
    intros id; rewrite ?elem_of_cons, ?elem_of_nil;
    (split; [intros Hin | intros (d & Hd & Hid & Hne)]);
    simplify_eq; simpl in *; try done; try congruence;
    try (by intuition discriminate).
  - exists {| session_id := sid |}. intuition (simplify_eq; done).
  - right. left. congruence.
  - exists {| session_id := sid |}. intuition (simplify_eq; done).
  - right. left. congruence.
Qed.

(** An answer without [session_id]: the game of the session the handler
    started from is read again and shown under no session. *)
Example startNewGame_without_session_id :
  startNewGame (session_in_round 2) (FetchOk {| session_id := None |})
    (FetchOk (game_in_round 3 false (Some [])))
  = (setGameState (Some (game_in_round 3 false (Some [])))
       (setSessionId None (session_in_round 2)),
     [Fetch (ReqNewGame None); Fetch (ReqGetGame "s1")]).
Proof. reflexivity. Qed.

(** ** The outcomes of a proposal *)

(** X12: a proposal made in a session with a list of messages and
    answered by the server ends in the answered state alone: the
    temporary message is not kept, the message typed is cleared, the
    error is cleared and [loading] is false; with a state whose messages
    are missing the update of the state throws instead. *)
Theorem makeProposal_outcomes (s : AppState) (gs data : GameState) :
  truthy_str (sessionId s) = true →
  gameState s = Some gs →
  (is_Some (messages gs) →
     ∃ effs,
       makeProposal s (FetchOk data)
       = Next (setLoading false
                 (setProposalMessage "" (setGameState (Some data) (setError "" s))))
              effs
       ∧ Fetch (ReqPropose (sessionId s) (proposalPoints s) (proposalMessage s)) ∈ effs)
  ∧ (messages gs = None →
     ∀ resp, ∃ effs, makeProposal s resp = RenderError effs).
Proof.
  intros Hsid Hgs. split.
  - intros [msgs Hmsgs]. unfold makeProposal, updateGameState, appendMessage.
    rewrite Hsid, Hgs. simpl. rewrite Hgs. simpl. rewrite Hmsgs. simpl.
    eexists. split; [reflexivity|].
    destruct (roundMovedToAi data gs); apply list_elem_of_In; simpl; auto.
  - intros Hnone resp. unfold makeProposal, updateGameState, appendMessage.
    rewrite Hsid, Hgs. simpl. rewrite Hgs. simpl. rewrite Hnone. simpl.
    by eexists.
Qed.

Lemma makeProposal_outcomes_witness :
  ∃ effs,
    makeProposal (session_in_round 1) (FetchOk (game_in_round 2 false (Some [])))
    = Next (setLoading false
              (setProposalMessage ""
                 (setGameState (Some (game_in_round 2 false (Some [])))
                    (setError "" (session_in_round 1)))))
           effs
    ∧ Fetch (ReqPropose (sessionId (session_in_round 1))
               (proposalPoints (session_in_round 1))
               (proposalMessage (session_in_round 1))) ∈ effs.
Proof.
  apply (proj1 (makeProposal_outcomes (session_in_round 1)
                  (game_in_round 1 false (Some []))
                  (game_in_round 2 false (Some [])) eq_refl eq_refl)).
  by eexists.
Defined.

(** ** Requests that throw *)

(** The event is a handler whose last request threw. *)
Definition request_threw (ev : event) : bool :=
  match ev with
  | EvStartNewGame (FetchThrow _) _
  | EvStartNewGame (FetchOk _) (FetchThrow _)
  | EvSubmitPlayerName (FetchThrow _)
  | EvMakeProposal (FetchThrow _)
  | EvMakeDecision _ (FetchThrow _)
  | EvAiPropose (FetchThrow _) => true
  | _ => false
  end.

(** X13: a handler whose request throws leaves the game as it is, and
    keeps the points chosen and the two messages typed. *)
Theorem failed_request_keeps_game (s s' : AppState) (ev : event) (effs : list effect) :
  request_threw ev = true →
  step s ev = Next s' effs →
  gameState s' = gameState s
  ∧ proposalPoints s' = proposalPoints s
  ∧ proposalMessage s' = proposalMessage s
  ∧ decisionMessage s' = decisionMessage s.
Proof.
  intros Hthrew Hstep.
  destruct ev as [| | | |resp game| | | | |resp| |resp|accept resp|resp| | | | |];
    try discriminate Hthrew.
  - simpl in Hstep. unfold_handlers.
    destruct resp as [data|e], game as [g|e']; try discriminate Hthrew;
      repeat case_match; by simplify_eq.
  - destruct resp as [data|e]; [discriminate Hthrew|].
    simpl in Hstep. unfold_handlers. repeat case_match; by simplify_eq.
  - destruct resp as [data|e]; [discriminate Hthrew|].
    simpl in Hstep. unfold makeProposal in Hstep.
    destruct (negb (truthy_str (sessionId s))); [by simplify_eq|].
    destruct (gameState s) as [gs|] eqn:Hgs; [|by simplify_eq].
    set (temp := {| oid := fresh_oid (default [] (messages gs)) |}) in Hstep.
    assert (Hmsgs : ∃ msgs, messages gs = Some msgs) by
      (destruct (messages gs) as [msgs|] eqn:Hmsgs; [by eexists|];
       by unfold updateGameState, appendMessage in Hstep; simpl in Hstep;
          rewrite Hgs in Hstep; simpl in Hstep; rewrite Hmsgs in Hstep).
    destruct Hmsgs as [msgs Hmsgs].
    assert (Hoid : oid temp = fresh_oid msgs) by (subst temp; simpl; by rewrite Hmsgs).
    pose proof (removeMessage_appendMessage temp gs msgs Hmsgs Hoid) as Hundo.
    unfold updateGameState in Hstep. simpl in Hstep. rewrite Hgs in Hstep.
    destruct (appendMessage temp (Some gs)) as [g|] eqn:Happ;
      [|by unfold appendMessage in Happ; simpl in Happ; rewrite Hmsgs in Happ].
    cbn -[removeMessage] in Hstep. rewrite Hundo in Hstep. simpl in Hstep.
    by simplify_eq.
  - destruct resp as [data|e]; [discriminate Hthrew|].
    simpl in Hstep. unfold_handlers. repeat case_match; by simplify_eq.
  - destruct resp as [data|e]; [discriminate Hthrew|].
    simpl in Hstep. unfold_handlers. repeat case_match; by simplify_eq.
Qed.

Lemma failed_request_keeps_game_witness :
  gameState (aiPropose (session_in_round 2) (FetchThrow "offline")).1
  = gameState (session_in_round 2).
Proof.
  refine (proj1 (failed_request_keeps_game (session_in_round 2) _
                   (EvAiPropose (FetchThrow "offline")) _ _ _)).
  - reflexivity.
  - reflexivity.
Defined.

(** ** The loading flag *)

(** X14: a handler that starts with [loading] false ends with [loading]
    false, but for one case: a proposal made in a session that has no
    game state, where the handler throws before its request and never
    resets the flag. *)
Theorem loading_released (s s' : AppState) (ev : event) (effs : list effect) :
  loading s = false →
  step s ev = Next s' effs →
  loading s' = true ↔
    (∃ resp, ev = EvMakeProposal resp)
    ∧ truthy_str (sessionId s) = true
    ∧ gameState s = None.
Proof.
  intros Hload Hstep.
  destruct ev; simpl in Hstep;
    try (unfold_handlers; repeat case_match; simpl in Hstep; simplify_eq; simpl;
         (split; [intros ?; congruence | intros [[? ?] _]; discriminate])).
  unfold makeProposal in Hstep.
  destruct (truthy_str (sessionId s)) eqn:Hsid; simpl in Hstep.
  - destruct (gameState s) as [gs|] eqn:Hgs.
    + split; [|by intros (_ & _ & ?)].
      unfold updateGameState in Hstep.
      repeat case_match; simpl in Hstep; simplify_option_eq; simpl;
        intros ?; congruence.
    + simplify_eq. simpl. split; [|done]. intros _. split; [by eexists|done].
  - simplify_eq. split; [intros ?; congruence|]. by intros (_ & ? & _).
Qed.

Lemma loading_released_witness :
  loading (setLoading true (setSessionId (Some "s1") initialState)) = true.
Proof.
  refine (proj2 (loading_released (setSessionId (Some "s1") initialState) _
                   (EvMakeProposal (FetchThrow "offline")) [] _ _) _).
  - reflexivity.
  - reflexivity.
  - split; [by eexists|]. split; reflexivity.
Defined.

(** ** Closing the name dialog *)

(** X15: while the game is over with a big win and no name, closing the
    name dialog does not last: after "Skip", and after a save whose
    request throws, the effect opens the dialog again; after a save
    answered with a named state the effect leaves it closed. *)
Theorem name_dialog_reopens (s : AppState) (gs : GameState) :
  gameState s = Some gs →
  game_over gs = true →
  isWinner (Some gs) = true →
  truthy_str (player_name gs) = false →
  showNameDialog (nameDialogEffect (setShowNameDialog false s)) = true
  ∧ (trim (playerName s) ≠ "" →
     (∀ e, showNameDialog (submitPlayerName s (FetchThrow e)).1 = false
           ∧ showNameDialog (nameDialogEffect (submitPlayerName s (FetchThrow e)).1) = true)
     ∧ (∀ data, truthy_str (player_name data) = true →
          showNameDialog (nameDialogEffect (submitPlayerName s (FetchOk data)).1) = false)).
Proof.
  intros Hgs Hover Hwin Hname.
  assert (Hdue : ∀ s0, gameState s0 = Some gs → showNameDialog s0 = false →
                       showNameDialog (nameDialogEffect s0) = true).
  { intros s0 Hg Hs. unfold nameDialogEffect.
    replace (nameDialogDue s0) with true; [done|].
    symmetry. apply nameDialogDue_spec. split; [|done]. by exists gs. }
  split; [by apply Hdue|].
  intros Hfull. unfold submitPlayerName.
  destruct (String.eqb_spec (trim (playerName s)) "") as [|_]; [done|].
  split.
  - intros e. split; [done|]. by apply Hdue.
  - intros data Hnamed. unfold nameDialogEffect.
    replace (nameDialogDue _) with false; [done|].
    symmetry. unfold nameDialogDue. simpl. rewrite Hnamed.
    by rewrite andb_false_r.
Qed.

(** A finished game with a lead of 20 points and no name, the dialog
    being shown. *)
Definition unnamed_win : AppState :=
  setShowNameDialog true
    (setGameState
       (Some {| current_round := 6; human_score := 40; ai_score := 20;
                game_over := true; winner := Some "human"; player_name := None;
                messages := Some [] |})
       (setSessionId (Some "s1") initialState)).

(** The same state after the name " Ann" was typed. *)
Definition unnamed_win_ann : AppState := setPlayerName " Ann" unnamed_win.

Lemma name_dialog_reopens_witness :
  showNameDialog (nameDialogEffect (setShowNameDialog false unnamed_win)) = true.
Proof.
  refine (proj1 (name_dialog_reopens unnamed_win _ _ _ _ _)); reflexivity.
Defined.

(** X16: the effect that opens the name dialog settles at once: run on
    its own result it changes nothing, and it never closes a dialog. *)
Theorem nameDialogEffect_settles (s : AppState) :
  nameDialogEffect (nameDialogEffect s) = nameDialogEffect s
  ∧ (showNameDialog s = true → nameDialogEffect s = s).
Proof.
  unfold nameDialogEffect. split.
  - destruct (nameDialogDue s) eqn:Hdue; [|by rewrite Hdue].
    unfold nameDialogDue at 1. simpl. by rewrite andb_false_r.
  - intros Hshown. unfold nameDialogDue. rewrite Hshown. by rewrite andb_false_r.
Qed.

Lemma nameDialogEffect_settles_witness :
  nameDialogEffect unnamed_win = unnamed_win.
Proof.
  apply (proj2 (nameDialogEffect_settles unnamed_win)). reflexivity.
Defined.

(** ** The saved name *)

(** X17: the name stored by [submitPlayerName] is stored under the key
    read on mount, is the trimmed name, and is not empty; read back on
    mount, it becomes the name of the player as it was stored. *)
Theorem saved_name_round_trip
    (s : AppState) (resp : fetch_result GameState) (key value : string) :
  LocalStorageSet key value ∈ (submitPlayerName s resp).2 →
  key = STORAGE_KEY
  ∧ value = trim (playerName s)
  ∧ value ≠ ""
  ∧ ∀ s0 lb, playerName (mountEffect s0 (Some value) lb).1 = value.
Proof.
  unfold submitPlayerName.
  destruct (String.eqb_spec (trim (playerName s)) "") as [Hempty|Hfull]; simpl.
  { by intros ?%elem_of_nil. }
  rewrite !elem_of_cons, elem_of_nil. intros [Heq|[Heq|[]]]; simplify_eq.
  repeat split; [done|].
  intros s0 lb. unfold mountEffect. simpl.
  destruct (String.eqb_spec (trim (playerName s)) "") as [|_]; [done|]. simpl.
  unfold fetchLeaderboard. rewrite trim_idempotent. by destruct lb.
Qed.

Lemma saved_name_round_trip_witness :
  playerName (mountEffect initialState (Some "Ann") (FetchThrow "offline")).1 = "Ann".
Proof.
  refine (proj2 (proj2 (proj2 (saved_name_round_trip
            (setPlayerName " Ann" initialState) (FetchThrow "offline")
            STORAGE_KEY "Ann" _))) initialState (FetchThrow "offline")).
  apply list_elem_of_In. simpl. auto.
Defined.

(** ** The big win *)

(** X18: when the two scores add up to at most 60, a big win is a win:
    [isWinner] implies that the human's score is the greater one. *)
Theorem isWinner_human_ahead (st : GameState) :
  (human_score st + ai_score st ≤ 60)%Z →
  isWinner (Some st) = true →
  (ai_score st < human_score st)%Z.
Proof.
  intros Hsum. unfold isWinner. rewrite orb_true_iff, !Z.ltb_lt. lia.
Qed.

Lemma isWinner_human_ahead_witness :
  (ai_score {| current_round := 6; human_score := 31; ai_score := 29;
               game_over := true; winner := Some "human"; player_name := None;
               messages := Some [] |}
   < 31)%Z.
Proof.
  apply (isWinner_human_ahead
           {| current_round := 6; human_score := 31; ai_score := 29;
              game_over := true; winner := Some "human"; player_name := None;
              messages := Some [] |}).
  - simpl. lia.
  - reflexivity.
Defined.

(** The bound on the sum is needed: [isWinner] looks at the human's score
    alone when it is above 30. *)
Example isWinner_behind :
  isWinner (Some {| current_round := 6; human_score := 31; ai_score := 40;
                    game_over := true; winner := Some "ai"; player_name := None;
                    messages := Some [] |}) = true.
Proof. reflexivity. Qed.

(** ** The two revisions of the name submission *)

(** X19: for a name that does not trim to nothing, the two revisions of
    [submitPlayerName] end with the same game, error and [loading]; the
    current one always closes the dialog, the earlier one only when the
    request succeeds; and they send the same request when the name has no
    white space to trim. *)
Theorem submitPlayerName_revisions (s : AppState) (resp : fetch_result GameState) :
  trim (playerName s) ≠ "" →
  gameState (submitPlayerName s resp).1 = gameState (Legacy.submitPlayerName s resp).1
  ∧ error (submitPlayerName s resp).1 = error (Legacy.submitPlayerName s resp).1
  ∧ loading (submitPlayerName s resp).1 = false
  ∧ loading (Legacy.submitPlayerName s resp).1 = false
  ∧ showNameDialog (submitPlayerName s resp).1 = false
  ∧ showNameDialog (Legacy.submitPlayerName s resp).1
    = match resp with
      | FetchOk _ => false
      | FetchThrow _ => showNameDialog s
      end
  ∧ (trim (playerName s) = playerName s →
     ∀ r, Fetch r ∈ (submitPlayerName s resp).2
          ↔ Fetch r ∈ (Legacy.submitPlayerName s resp).2).
Proof.
  intros Hfull. unfold submitPlayerName, Legacy.submitPlayerName.
  destruct (String.eqb_spec (trim (playerName s)) "") as [|_]; [done|].
  assert (Hreq : trim (playerName s) = playerName s →
            ∀ r, Fetch r ∈ [LocalStorageSet STORAGE_KEY (trim (playerName s));
                            Fetch (ReqPatchGame (sessionId s) (trim (playerName s)))]
                 ↔ Fetch r ∈ [LocalStorageSet Legacy.STORAGE_KEY (playerName s);
                              Fetch (ReqPatchGame (sessionId s) (playerName s))]).
  { intros Htrim r. rewrite Htrim, !elem_of_cons, !elem_of_nil.
    intuition discriminate. }
  by destruct resp as [data|e].
Qed.

Lemma submitPlayerName_revisions_witness :
  showNameDialog (Legacy.submitPlayerName unnamed_win_ann (FetchThrow "offline")).1
  = showNameDialog unnamed_win_ann.
Proof.
  refine (proj1 (proj2 (proj2 (proj2 (proj2 (proj2
            (submitPlayerName_revisions unnamed_win_ann (FetchThrow "offline") _))))))).
  vm_compute. discriminate.
Defined.

(** ** Typing a message *)

Lemma substring_0_all (n : nat) (s : string) :
  String.length s ≤ n → substring 0 n s = s.
Proof.
  revert s. induction n as [|n IH]; intros [|c s]; simpl; try done; try lia.
  intros Hlen. f_equal. apply IH. lia.
Qed.

Lemma substring_0_prefix (n : nat) (s : string) :
  ∃ rest, s = substring 0 n s +:+ rest.
Proof.
  revert s. induction n as [|n IH]; intros [|c s]; simpl.
  - by exists "".
  - by eexists.
  - by exists "".
  - destruct (IH s) as [rest Hrest]. exists rest.
    change (String c s = String c (substring 0 n s +:+ rest)). by f_equal.
Qed.

Lemma substring_0_length_min (n : nat) (s : string) :
  String.length (substring 0 n s) = Nat.min n (String.length s).
Proof.
  revert s. induction n as [|n IH]; intros [|c s]; simpl; try done.
  by rewrite IH.
Qed.

(** X20: a message of at most 256 characters is stored as typed; a longer
    one is cut to its first 256 characters. The same holds of the message
    of a decision. *)
Theorem message_change_keeps_prefix (s : AppState) (value : string) :
  (String.length value ≤ 256 →
     proposalMessage (handleProposalMessageChange s value) = value
     ∧ decisionMessage (handleDecisionMessageChange s value) = value)
  ∧ (∃ rest, value = proposalMessage (handleProposalMessageChange s value) +:+ rest)
  ∧ (∃ rest, value = decisionMessage (handleDecisionMessageChange s value) +:+ rest)
  ∧ String.length (proposalMessage (handleProposalMessageChange s value))
    = Nat.min 256 (String.length value)
  ∧ String.length (decisionMessage (handleDecisionMessageChange s value))
    = Nat.min 256 (String.length value).
Proof.
  simpl. unfold slice0. split; [|split; [|split; [|split]]].
  - intros Hlen. by rewrite substring_0_all.
  - apply substring_0_prefix.
  - apply substring_0_prefix.
  - apply substring_0_length_min.
  - apply substring_0_length_min.
Qed.

Lemma message_change_keeps_prefix_witness :
  proposalMessage (handleProposalMessageChange initialState "7 for me, 3 for you")
  = "7 for me, 3 for you".
Proof.
  apply (proj1 (message_change_keeps_prefix initialState "7 for me, 3 for you")).
  vm_compute. lia.
Defined.
